(** * ProFAB feature-extraction module: a shallow embedding

    The development follows the two Python files of the module,

    - [utils.py]: FASTA parsing, the missing-matrix resolver, matrix
      acquisition and the two output normalizers;
    - [feature_extracter.py]: the descriptor vocabularies and the two
      extraction methods.

    Python strings are [string]s whose characters are read as code points
    below 256; a file holds the characters that were written to it, and
    iterating it in text mode applies Python's universal-newline reading
    ([PyStr.file_lines]).  A [dict] is an association list in insertion
    order, a [set] is a [gset].  Exceptions are explicit
    results, and the file system, the network and the shell are an explicit
    world that the stateful functions thread. *)

From Stdlib Require Import ZArith Ascii String List Bool Lia.
From stdpp Require Import base decidable option list strings gmap sets fin_maps.

Set Warnings "-clear-no-such-hyp".
Local Open Scope Z_scope.

(** ** Python string primitives *)

Module PyStr.

Definition LF : ascii := Ascii.ascii_of_nat 10.
Definition CR : ascii := Ascii.ascii_of_nat 13.
Definition TAB : ascii := Ascii.ascii_of_nat 9.

Definition chr (c : ascii) : string := String c EmptyString.

(** [str.isspace] on one character, for code points below 256. *)
Definition is_space (c : ascii) : bool :=
  let n := Ascii.nat_of_ascii c in
  ((9 <=? n)%nat && (n <=? 13)%nat)
  || ((28 <=? n)%nat && (n <=? 32)%nat)
  || (n =? 133)%nat || (n =? 160)%nat.

Definition is_empty (s : string) : bool :=
  match s with EmptyString => true | String _ _ => false end.

(** [s.lstrip()] *)
Fixpoint lstrip (s : string) : string :=
  match s with
  | EmptyString => EmptyString
  | String c s' => if is_space c then lstrip s' else s
  end.

(** [s.rstrip()] *)
Fixpoint rstrip (s : string) : string :=
  match s with
  | EmptyString => EmptyString
  | String c s' =>
      let r := rstrip s' in
      if is_space c && is_empty r then EmptyString else String c r
  end.

(** [s.strip()] *)
Definition strip (s : string) : string := rstrip (lstrip s).

(** [s.split(sep)] for a one-character separator: never the empty list,
    empty fields are kept. *)
Fixpoint split (sep : ascii) (s : string) : list string :=
  match s with
  | EmptyString => [EmptyString]
  | String c s' =>
      if Ascii.eqb c sep then EmptyString :: split sep s'
      else match split sep s' with
           | f :: fs => String c f :: fs
           | [] => [chr c]
           end
  end.

(** [s.replace(a, b)] for one-character [a] and [b]. *)
Fixpoint replace (a b : ascii) (s : string) : string :=
  match s with
  | EmptyString => EmptyString
  | String c s' => String (if Ascii.eqb c a then b else c) (replace a b s')
  end.

(** [s[1:]] *)
Definition tail (s : string) : string :=
  match s with EmptyString => EmptyString | String _ s' => s' end.

(** [s[0]]: [None] stands for [IndexError]. *)
Definition head (s : string) : option ascii :=
  match s with EmptyString => None | String c _ => Some c end.

(** [l[i]] with Python's negative indices: [None] stands for
    [IndexError]. *)
Definition index {A} (l : list A) (i : Z) : option A :=
  let n := Z.of_nat (length l) in
  if (0 <=? i) && (i <? n) then l !! Z.to_nat i
  else if (- n <=? i) && (i <? 0) then l !! Z.to_nat (n + i)
  else None.

(** What [open(p, 'r')] delivers of the stored characters (universal
    newlines): a carriage return followed by a line feed, and a carriage
    return on its own, are both read as one line feed. *)
Fixpoint universal_newlines (s : string) : string :=
  match s with
  | EmptyString => EmptyString
  | String c s' =>
      if Ascii.eqb c CR then
        match s' with
        | String c' _ =>
            if Ascii.eqb c' LF then universal_newlines s'
            else String LF (universal_newlines s')
        | EmptyString => chr LF
        end
      else String c (universal_newlines s')
  end.

(** The lines of a text with their line feeds; only the last line may lack
    one, and no line is empty. *)
Fixpoint lines_of (s : string) : list string :=
  match s with
  | EmptyString => []
  | String c s' =>
      if Ascii.eqb c LF then chr c :: lines_of s'
      else match lines_of s' with
           | [] => [chr c]
           | l :: ls => String c l :: ls
           end
  end.

(** [for line in fp] on a file opened in text mode, from its stored
    characters. *)
Definition file_lines (s : string) : list string :=
  lines_of (universal_newlines s).

(** ["".join(l)] *)
Definition concat (l : list string) : string :=
  fold_right String.append EmptyString l.

End PyStr.

(** ** Python dictionaries, in insertion order *)

Module PyDict.

Definition t := list (string * string).

Definition keys (d : t) : list string := d.*1.

(** [k in d] *)
Definition mem (k : string) (d : t) : bool := bool_decide (k ∈ keys d).

(** [d.get(k)] *)
Fixpoint get (k : string) (d : t) : option string :=
  match d with
  | [] => None
  | (k', v) :: d' => if decide (k' = k) then Some v else get k d'
  end.

(** [d[k] = v]: an existing key keeps its place, a new one goes last. *)
Fixpoint set (k v : string) (d : t) : t :=
  match d with
  | [] => [(k, v)]
  | (k', v') :: d' =>
      if decide (k' = k) then (k', v) :: d' else (k', v') :: set k v d'
  end.

End PyDict.

(** ** Exceptions *)

Inductive exn : Type :=
  | IndexError
  | FileNotFoundError
  | KeyError
  | ConnectionError.

Inductive result (A : Type) : Type :=
  | Ret (a : A)
  | Raise (e : exn).
Arguments Ret {A} a.
Arguments Raise {A} e.

(** ** [utils.read_fasta_to_dict] *)

Record fasta_state := FastaState {
  fasta_dict : PyDict.t;
  sequence : string;
  prot_id : string
}.

(** The header branch of the loop body. *)
Definition fasta_header (place_protein_id : Z) (st : fasta_state)
    (line : string) : result fasta_state :=
  let d1 := if decide (prot_id st = "")
            then fasta_dict st
            else PyDict.set (prot_id st) (sequence st) (fasta_dict st) in
  match PyStr.index (PyStr.split "|" (PyStr.strip line)) place_protein_id with
  | None => Raise IndexError
  | Some f =>
      let pid := if place_protein_id =? 0 then PyStr.tail f else f in
      if PyDict.mem pid d1
      then Ret (FastaState d1 (sequence st) pid)
      else Ret (FastaState (PyDict.set pid "" d1) "" pid)
  end.

(** One iteration of [for line in fp]. *)
Definition fasta_step (place_protein_id : Z) (st : fasta_state)
    (line : string) : result fasta_state :=
  match PyStr.head line with
  | None => Raise IndexError
  | Some c =>
      if Ascii.eqb c ">" then fasta_header place_protein_id st line
      else Ret (FastaState (fasta_dict st)
                  (sequence st +:+ PyStr.strip line) (prot_id st))
  end.

Fixpoint fasta_loop (place_protein_id : Z) (lines : list string)
    (st : fasta_state) : result fasta_state :=
  match lines with
  | [] => Ret st
  | line :: rest =>
      match fasta_step place_protein_id st line with
      | Ret st' => fasta_loop place_protein_id rest st'
      | Raise e => Raise e
      end
  end.

(** The function on the lines of the opened file. *)
Definition read_fasta_lines (place_protein_id : Z) (lines : list string)
    : result PyDict.t :=
  match fasta_loop place_protein_id lines (FastaState [] "" "") with
  | Ret st => Ret (PyDict.set (prot_id st) (sequence st) (fasta_dict st))
  | Raise e => Raise e
  end.

(** ** The world: file system, network and shell *)

(** A file path is a directory and an entry name, as the code builds it
    with ["{}/{}".format(dir, name)]; the tree maps a directory to its
    entries and an entry to its content.  The directories of a world are
    the keys of its tree, the files are the entries; a path names a
    directory or a file, never both. *)
Abbreviation tree := (gmap string (gmap string string)).

Inductive call : Type :=
  | HttpGet (url : string)
  | OsSystem (cmd : string).

Record world := World {
  fs : tree;
  calls : list call
}.

Inductive http_response : Type :=
  | HttpBody (content : string)   (* 2xx *)
  | HttpError                     (* [raise_for_status] raises *)
  | NoConnection.                 (* [requests.get] itself raises *)

(** What the program cannot decide: its install location, the platform
    string, the remote endpoint, what a shell command does to the file
    system, and the order in which Python enumerates a set or a directory
    listing. *)
Record env := Env {
  path_to_folder : string;
  platform_platform : string;
  requests_get : string → http_response;
  os_system_effect : string → tree → tree;
  enum : gset string → list string;
  enum_perm : ∀ X, enum X ≡ₚ elements X
}.

(** State and exceptions: a raised exception keeps the world reached. *)
Definition M (A : Type) : Type := world → result A * world.

Definition ret {A} (a : A) : M A := λ w, (Ret a, w).
Definition raise {A} (e : exn) : M A := λ w, (Raise e, w).
Definition bind {A B} (m : M A) (k : A → M B) : M B :=
  λ w, match m w with
       | (Ret a, w') => k a w'
       | (Raise e, w') => (Raise e, w')
       end.

#[global] Instance M_ret : MRet M := @ret.
#[global] Instance M_bind : MBind M := λ A B k m, bind m k.

Notation "'let*' x := m 'in' k" := (bind m (λ x, k))
  (at level 10, x binder, m at level 200, k at level 200).

(** Leaving a loop body: fall through to the next iteration ([continue] or
    the end of the body) or [return] from the enclosing function. *)
Inductive flow (R : Type) : Type :=
  | Next
  | Return (r : R).
Arguments Next {R}.
Arguments Return {R} r.

(** [for x in l: body], with the value of a [return] inside the body. *)
Fixpoint for_in {A R} (l : list A) (body : A → M (flow R)) : M (option R) :=
  match l with
  | [] => ret None
  | x :: l' =>
      let* f := body x in
      match f with
      | Next => for_in l' body
      | Return r => ret (Some r)
      end
  end.

Definition path : Type := string * string.

Definition path_str (p : path) : string := p.1 +:+ "/" +:+ p.2.

Module Os.

Definition get_fs : M tree := λ w, (Ret (fs w), w).
Definition put_fs (t : tree) : M unit := λ w, (Ret tt, World t (calls w)).
Definition log (c : call) : M unit :=
  λ w, (Ret tt, World (fs w) (calls w ++ [c])).

(** [os.listdir(d)] *)
Definition listdir (E : env) (d : string) : M (list string) :=
  let* t := get_fs in
  match t !! d with
  | Some entries => ret (enum E (dom entries))
  | None => raise FileNotFoundError
  end.

(** [os.path.isdir(d)], [os.path.exists(d)] on a directory path *)
Definition isdir (d : string) : M bool :=
  let* t := get_fs in ret (bool_decide (is_Some (t !! d))).

(** [p[:p.rfind('/') + 1]]: [None] when [p] has no ['/'] *)
Fixpoint upto_last_slash (p : string) : option string :=
  match p with
  | EmptyString => None
  | String c p' =>
      match upto_last_slash p' with
      | Some h => Some (String c h)
      | None => if Ascii.eqb c "/" then Some "/" else None
      end
  end.

(** [s.rstrip('/')] *)
Fixpoint rstrip_slashes (s : string) : string :=
  match s with
  | EmptyString => EmptyString
  | String c s' =>
      let r := rstrip_slashes s' in
      if Ascii.eqb c "/" && PyStr.is_empty r then EmptyString else String c r
  end.

(** [os.path.dirname(p)] (posixpath): the part before the last ['/'],
    without its trailing slashes unless it consists of slashes only. *)
Definition dirname (p : string) : string :=
  match upto_last_slash p with
  | None => ""
  | Some h =>
      let r := rstrip_slashes h in
      if PyStr.is_empty r then h else r
  end.

(** The directory that must exist for [os.mkdir(d)] to succeed is there:
    the working directory and the root always are. *)
Definition parent_exists (t : tree) (d : string) : bool :=
  PyStr.is_empty (rstrip_slashes (dirname d))
  || bool_decide (is_Some (t !! dirname d)).

(** [os.mkdir(d)], called when [d] is absent: the directory that holds
    [d] must exist. *)
Definition mkdir (d : string) : M unit :=
  let* t := get_fs in
  if parent_exists t d then put_fs (<[d := ∅]> t)
  else raise FileNotFoundError.

(** The proper prefixes of [d] that end before a ['/'], outermost first:
    the directories above [d]. *)
Fixpoint ancestors (d : string) : list string :=
  match d with
  | EmptyString => []
  | String c d' =>
      let rest := String c <$> ancestors d' in
      match d' with
      | String c' _ => if Ascii.eqb c' "/" then PyStr.chr c :: rest else rest
      | EmptyString => rest
      end
  end.

(** One directory more, unless it is there. *)
Definition with_dir (t : tree) (d : string) : tree :=
  if bool_decide (is_Some (t !! d)) then t else <[d := ∅]> t.

(** [os.makedirs(d)], called when [d] is absent: the missing directories
    above [d] are made as well. *)
Definition makedirs (d : string) : M unit :=
  let* t := get_fs in put_fs (foldl with_dir t (ancestors d ++ [d])).

(** [shutil.rmtree(d)] inside [try: ... except OSError: print(...)] *)
Definition rmtree_quiet (d : string) : M unit :=
  let* t := get_fs in put_fs (delete d t).

(** [open(p, 'r')]: the characters stored in an existing file; the
    callers iterate them with [PyStr.file_lines] *)
Definition read (p : path) : M string :=
  let* t := get_fs in
  match t !! p.1 ≫= (.!! p.2) with
  | Some content => ret content
  | None => raise FileNotFoundError
  end.

(** [open(p, 'w')]: the file is created or truncated *)
Definition open_w (p : path) : M unit :=
  let* t := get_fs in
  match t !! p.1 with
  | Some entries => put_fs (<[p.1 := <[p.2 := ""]> entries]> t)
  | None => raise FileNotFoundError
  end.

(** [fw.write(s)] on a file opened for writing *)
Definition write (p : path) (s : string) : M unit :=
  let* t := get_fs in
  match t !! p.1 with
  | Some entries =>
      put_fs (<[p.1 := <[p.2 := default "" (entries !! p.2) +:+ s]> entries]> t)
  | None => raise FileNotFoundError
  end.

(** [os.remove(p)] *)
Definition remove (p : path) : M unit :=
  let* t := get_fs in
  match t !! p.1 with
  | Some entries =>
      if bool_decide (is_Some (entries !! p.2))
      then put_fs (<[p.1 := delete p.2 entries]> t)
      else raise FileNotFoundError
  | None => raise FileNotFoundError
  end.

(** [os.system(cmd)]; the exit status is dropped by every caller *)
Definition system (E : env) (cmd : string) : M unit :=
  log (OsSystem cmd) ;;
  let* t := get_fs in put_fs (os_system_effect E cmd t).

(** [requests.get(url)] *)
Definition http_get (E : env) (url : string) : M http_response :=
  log (HttpGet url) ;;
  match requests_get E url with
  | NoConnection => raise ConnectionError
  | r => ret r
  end.

End Os.

(** ** [utils.py] on the world *)

Section Utils.

Variable E : env.

(** [a in b] on strings *)
Definition contains (a b : string) : bool :=
  bool_decide (is_Some (String.index 0 a b)).

(** [file.split(".")[0]] *)
Definition before_dot (file : string) : result string :=
  match PyStr.index (PyStr.split "." file) 0 with
  | Some f => Ret f
  | None => Raise IndexError
  end.

Definition lift {A} (r : result A) : M A :=
  match r with Ret a => ret a | Raise e => raise e end.

(** [for file in os.listdir(pssm_dir): ... set_proteins_pssm.add(...)] *)
Fixpoint listing_ids (files : list string) (set_proteins_pssm : gset string)
    : result (gset string) :=
  match files with
  | [] => Ret set_proteins_pssm
  | file :: rest =>
      match before_dot file with
      | Ret protein_id => listing_ids rest (set_proteins_pssm ∪ {[protein_id]})
      | Raise e => Raise e
      end
  end.

(** [find_pssm_missing_proteins(set_proteins_fasta, pssm_dir)] *)
Definition find_pssm_missing_proteins (set_proteins_fasta : gset string)
    (pssm_dir : string) : M (list string) :=
  let* files := Os.listdir E pssm_dir in
  let* set_proteins_pssm := lift (listing_ids files ∅) in
  ret (enum E (set_proteins_fasta ∖ set_proteins_pssm)).

(** [read_fasta_to_dict(input_dir, fasta_file, place_protein_id)] *)
Definition read_fasta_to_dict (input_dir fasta_file : string)
    (place_protein_id : Z) : M PyDict.t :=
  let* content := Os.read (input_dir, fasta_file +:+ ".fasta") in
  lift (read_fasta_lines place_protein_id (PyStr.file_lines content)).

Definition path_single_fastas : string :=
  path_to_folder E +:+ "/temp_folder/single_fastas".

(** [form_single_fasta_files(list_proteins_no_pssm, fasta_dict)]: the
    scratch directory is made with [os.mkdir] when it is absent; a missing
    key of [fasta_dict] is Python's [KeyError]. *)
Definition form_single_fasta_files (list_proteins_no_pssm : list string)
    (fasta_dict : PyDict.t) : M unit :=
  let* there := Os.isdir path_single_fastas in
  (if there then ret tt else Os.mkdir path_single_fastas);;
  for_in list_proteins_no_pssm (λ prot_id,
    let fw := (path_single_fastas, prot_id +:+ ".fasta") in
    Os.open_w fw;;
    let* seq := match PyDict.get prot_id fasta_dict with
          | Some s => ret s
          | None => raise KeyError
          end in
    Os.write fw (">sp|" +:+ prot_id +:+ PyStr.chr PyStr.LF
                 +:+ seq +:+ PyStr.chr PyStr.LF);;
    ret (@Next unit));;
  ret tt.

Definition psiblast_command (exe single_fasta_prot pssmfile : string)
    : string :=
  let path_blast := path_to_folder E +:+ "/ncbi-blast" in
  path_blast +:+ "/" +:+ exe +:+ " -db " +:+ path_blast
  +:+ "/uniref50_db/uniref50.blastdb -evalue 0.001 -query "
  +:+ single_fasta_prot +:+ " -out_ascii_pssm " +:+ pssmfile
  +:+ "  -out " +:+ path_blast
  +:+ "/outfile -num_iterations 3 -comp_based_stats 1".

(** [form_missing_pssm_files(pssm_dir)] *)
Definition form_missing_pssm_files (pssm_dir : string) : M unit :=
  let* names := Os.listdir E path_single_fastas in
  for_in names (λ filename,
    let* f := lift (before_dot filename) in
    let prot_id := PyStr.strip f in
    let single_fasta_prot := path_str (path_single_fastas, filename) in
    let pssmfile := path_str (pssm_dir, prot_id +:+ ".pssm") in
    (if contains "Linux" (platform_platform E)
     then Os.system E (psiblast_command "psiblast" single_fasta_prot pssmfile)
     else if contains "Darwin" (platform_platform E)
     then Os.system E (psiblast_command "psiblastMAC" single_fasta_prot pssmfile)
     else ret tt);;
    ret (@Next unit));;
  Os.rmtree_quiet path_single_fastas.

(** [copy_pssms(fasta_dict)]; the caller passes a list of identifiers *)
Definition copy_pssms (fasta_dict : list string) : M unit :=
  for_in fasta_dict (λ prot_id,
    let remote_url :=
      "https://slpred.kansil.org/swissprot_pssms/" +:+ prot_id +:+ ".pssm" in
    let local_file :=
      (path_to_folder E +:+ "/pssm_files", prot_id +:+ ".pssm") in
    let* data := Os.http_get E remote_url in
    match data with
    | HttpBody content =>
        Os.open_w local_file;; Os.write local_file content;;
        ret (@Next unit)
    | _ => ret Next
    end);;
  ret tt.

(** [set(fasta_dict.keys())] *)
Definition key_set (fasta_dict : PyDict.t) : gset string :=
  list_to_set (PyDict.keys fasta_dict).

(** [copy_form_pssm_matrices(fasta_dict)] *)
Definition copy_form_pssm_matrices (fasta_dict : PyDict.t) : M unit :=
  let pssm_dir := path_to_folder E +:+ "/pssm_files" in
  list_proteins_no_pssm1 ←
    find_pssm_missing_proteins (key_set fasta_dict) pssm_dir;
  (if bool_decide (length list_proteins_no_pssm1 ≠ 0%nat)
   then copy_pssms list_proteins_no_pssm1 else ret tt);;
  list_proteins_no_pssm2 ←
    find_pssm_missing_proteins (key_set fasta_dict) pssm_dir;
  if bool_decide (length list_proteins_no_pssm2 ≠ 0%nat)
  then form_single_fasta_files list_proteins_no_pssm2 fasta_dict;;
       form_missing_pssm_files pssm_dir
  else ret tt.

(** [zip(fp, fasta_dict)] *)
Definition zip_lines (lines : list string) (fasta_dict : PyDict.t)
    : list (string * string) :=
  zip lines (PyDict.keys fasta_dict).

(** [edit_extracted_features_POSSUM(temp_output_file, output_file,
    fasta_dict)] *)
Definition edit_extracted_features_POSSUM (temp_output_file output_file : path)
    (fasta_dict : PyDict.t) : M unit :=
  (* [open(temp_output_file, 'r')] fails on a missing file; the lines are
     read by the loop, after [output_file] is opened. *)
  Os.read temp_output_file;;
  Os.open_w output_file;;
  let* content := Os.read temp_output_file in
  for_in (zip_lines (PyStr.file_lines content) fasta_dict)
    (λ '(line, prot_id),
      Os.write output_file
        (prot_id +:+ PyStr.chr PyStr.TAB
         +:+ PyStr.replace "," PyStr.TAB (PyStr.strip line)
         +:+ PyStr.chr PyStr.LF);;
      ret (@Next unit));;
  Os.remove temp_output_file.

(** The body of the loop of [edit_extracted_features_iFeature]. *)
Definition iFeature_line (output_file : path) (place_protein_id : Z)
    (line : string) : M (flow unit) :=
  match PyStr.head line with
  | None => raise IndexError
  | Some c =>
      if Ascii.eqb c "#" then ret Next
      else
        let line_split := PyStr.split PyStr.TAB (PyStr.strip line) in
        let* first := lift (match PyStr.index line_split 0 with
                            | Some f => Ret f | None => Raise IndexError end) in
        let* protein_id :=
          lift (match PyStr.index (PyStr.split "|" first) place_protein_id with
                | Some f => Ret f | None => Raise IndexError end) in
        Os.write output_file protein_id;;
        for_in (drop 1 line_split) (λ feature,
          Os.write output_file (PyStr.chr PyStr.TAB +:+ feature);;
          ret (@Next unit));;
        Os.write output_file (PyStr.chr PyStr.LF);;
        ret Next
  end.

(** [edit_extracted_features_iFeature(temp_output_file, output_file,
    place_protein_id)] *)
Definition edit_extracted_features_iFeature (temp_output_file output_file : path)
    (place_protein_id : Z) : M unit :=
  Os.read temp_output_file;;
  Os.open_w output_file;;
  let* content := Os.read temp_output_file in
  for_in (PyStr.file_lines content)
    (iFeature_line output_file place_protein_id);;
  Os.remove temp_output_file.

End Utils.

(** ** [feature_extracter.py] *)

Record feature_extracter := FeatureExtracter {
  protein_feature : string;
  place_protein_id : Z;
  input_folder : string;
  fasta_file_name : string;
  POSSUM_desc_list : gset string;
  iFeature_desc_list : gset string
}.

(** [feature_extracter.__init__] *)
Definition init (protein_feature : string) (place_protein_id : Z)
    (input_folder fasta_file_name : string) : feature_extracter :=
  {| protein_feature := protein_feature;
     place_protein_id := place_protein_id;
     input_folder := input_folder;
     fasta_file_name := fasta_file_name;
     POSSUM_desc_list :=
       list_to_set
         ["aac_pssm"; "d_fpssm"; "smoothed_pssm"; "ab_pssm"; "pssm_composition";
          "rpm_pssm"; "s_fpssm"; "dpc_pssm"; "k_separated_bigrams_pssm"; "eedp";
          "tpc"; "edp"; "rpssm"; "pse_pssm"; "dp_pssm"; "pssm_ac"; "pssm_cc";
          "aadp_pssm"; "aatp"; "medp"; "tri_gram_pssm"; "all_POSSUM"];
     iFeature_desc_list :=
       list_to_set
         ["AAC"; "PAAC"; "APAAC"; "DPC"; "GAAC"; "CKSAAP"; "CKSAAGP"; "GDPC";
          "Moran"; "Geary"; "NMBroto"; "CTDC"; "CTDD"; "CTDT"; "CTriad";
          "KSCTriad"; "SOCNumber"; "QSOrder"; "all_iFeature"] |}.

(** The defaults of [__init__]. *)
Definition init_default : feature_extracter :=
  init "aac_pssm" 1 "input_folder" "sample".

Section Extracter.

Variable E : env.

Definition temp_output_path (self : feature_extracter) (prot_feat : string)
    : path :=
  (path_to_folder E +:+ "/temp_folder/temp_output_folder",
   fasta_file_name self +:+ "_" +:+ prot_feat +:+ ".txt").

(** ["feature_extraction_output/" + re.split('/', input_folder)[-1]] *)
Definition output_dir (self : feature_extracter) : result string :=
  match PyStr.index (PyStr.split "/" (input_folder self)) (-1) with
  | Some ip => Ret ("feature_extraction_output/" +:+ ip)
  | None => Raise IndexError
  end.

Definition possum_command (self : feature_extracter)
    (temp_output_file prot_feat : string) : string :=
  "python " +:+ path_to_folder E
  +:+ "/POSSUM_Standalone_Toolkit/src/possum.py -i "
  +:+ input_folder self +:+ "/" +:+ fasta_file_name self +:+ ".fasta"
  +:+ " -o " +:+ temp_output_file +:+ " -t " +:+ prot_feat
  +:+ " -p " +:+ path_to_folder E +:+ "/pssm_files".

Definition iFeature_command (self : feature_extracter)
    (temp_output_file prot_feat : string) : string :=
  "python " +:+ path_to_folder E +:+ "/iFeature/iFeature.py --file "
  +:+ input_folder self +:+ "/" +:+ fasta_file_name self +:+ ".fasta"
  +:+ " --type " +:+ prot_feat +:+ " --out " +:+ temp_output_file.

(** The descriptors the loop ranges over. *)
Definition list_desc (self : feature_extracter) (alias : string)
    (desc_list : gset string) : list string :=
  if decide (protein_feature self = alias)
  then enum E (desc_list ∖ {[alias]})
  else [protein_feature self].

(** [feature_extracter.extract_POSSUM_feature]; the result is the
    returned path, [None] when the loop ends without a [return]. *)
Definition extract_POSSUM_feature (self : feature_extracter)
    : M (option path) :=
  let* fasta_dict :=
    read_fasta_to_dict (input_folder self) (fasta_file_name self)
      (place_protein_id self) in
  copy_form_pssm_matrices E fasta_dict;;
  for_in (list_desc self "all_POSSUM" (POSSUM_desc_list self))
    (λ prot_feat,
      let temp_output_file := temp_output_path self prot_feat in
      Os.system E
        (possum_command self (path_str temp_output_file) prot_feat);;
      let* out_dir := lift (output_dir self) in
      let* there := Os.isdir out_dir in
      (if there then ret tt else Os.makedirs out_dir);;
      let output_file :=
        (out_dir, fasta_file_name self +:+ "_" +:+ prot_feat +:+ ".txt") in
      edit_extracted_features_POSSUM temp_output_file output_file fasta_dict;;
      ret (Return output_file)).

(** [feature_extracter.extract_iFeature_feature] *)
Definition extract_iFeature_feature (self : feature_extracter)
    : M (option path) :=
  for_in (list_desc self "all_iFeature" (iFeature_desc_list self))
    (λ prot_feat,
      let temp_output_file := temp_output_path self prot_feat in
      Os.system E
        (iFeature_command self (path_str temp_output_file) prot_feat);;
      let* out_dir := lift (output_dir self) in
      let* there := Os.isdir out_dir in
      (if there then ret tt else Os.makedirs out_dir);;
      let output_file :=
        (out_dir, fasta_file_name self +:+ "_" +:+ prot_feat +:+ ".txt") in
      edit_extracted_features_iFeature temp_output_file output_file
        (place_protein_id self);;
      ret (Return output_file)).

End Extracter.

(** ** The specification's vocabulary

    These definitions follow the words of the specification, not the code;
    the theorems below compare the two. *)

Module Spec.

(** The substring before the first occurrence of [sep] (all of [s] when
    there is none). *)
Fixpoint before_first (sep : ascii) (s : string) : string :=
  match s with
  | EmptyString => EmptyString
  | String c s' =>
      if Ascii.eqb c sep then EmptyString
      else String c (before_first sep s')
  end.

(** [present(dir)]: the identifiers that have a matrix file. *)
Definition present (entries : gmap string string) : gset string :=
  set_map (before_first ".") (dom entries).

(** The pipe-delimited positional rule: the field at [index] of [s] cut
    at every ['|']. *)
Definition pipe_field (index : Z) (s : string) : option string :=
  PyStr.index (PyStr.split "|" s) index.

(** Removing the leading ['>'] marker of a field. *)
Definition strip_marker (field : string) : string :=
  match field with
  | String c rest => if Ascii.eqb c ">" then rest else field
  | EmptyString => EmptyString
  end.

(** The identifier of a header: the field at [header_field_index], without
    the marker when the index is 0. *)
Definition header_identifier (header_field_index : Z) (header : string)
    : option string :=
  match pipe_field header_field_index header with
  | Some field =>
      Some (if header_field_index =? 0 then strip_marker field else field)
  | None => None
  end.

(** A line that starts a record. *)
Definition is_header (line : string) : bool :=
  match line with
  | String c _ => Ascii.eqb c ">"
  | EmptyString => false
  end.

(** The header of a header line: the line without its terminator and
    surrounding blanks. *)
Definition header_of (line : string) : string := PyStr.strip line.

(** The identifiers of the header lines of a file, in file order. *)
Definition header_ids (index : Z) (lines : list string)
    : option (list string) :=
  mapM (λ line, header_identifier index (header_of line))
       (filter (λ line, is_header line = true) lines).


(** The sequence that a run of sequence lines spells. *)
Definition sequence_of (lines : list string) : string :=
  PyStr.concat (PyStr.strip <$> lines).

(** A non-empty line that does not start a record. *)
Definition is_sequence_line (line : string) : bool :=
  negb (PyStr.is_empty line) && negb (is_header line).

(** A line that is not a header of identifier [a]: a sequence line, or a
    header whose identifier is defined and differs from [a]. *)
Definition avoids (index : Z) (a : string) (line : string) : Prop :=
  line ≠ "" ∧
  (is_header line = true →
   ∃ b, header_identifier index (header_of line) = Some b ∧ b ≠ a).

(** One normalized record of the PSSM family. *)
Definition possum_record (line prot_id : string) : string :=
  prot_id +:+ PyStr.chr PyStr.TAB
  +:+ PyStr.replace "," PyStr.TAB (PyStr.strip line)
  +:+ PyStr.chr PyStr.LF.

(** [s] without its first [n] characters. *)
Fixpoint skip (n : nat) (s : string) : string :=
  match n, s with
  | O, _ => s
  | S n', String _ s' => skip n' s'
  | S _, EmptyString => EmptyString
  end.

(** A comment line of the encoding tool's output. *)
Definition is_comment (line : string) : bool :=
  match line with
  | String c _ => Ascii.eqb c "#"
  | EmptyString => false
  end.

(** One normalized record of the encoding family: the data line with its
    first tab-separated field replaced by the identifier found in it. *)
Definition iFeature_record (index : Z) (line : string) : option string :=
  let data := PyStr.strip line in
  let first := before_first PyStr.TAB data in
  match pipe_field index first with
  | Some protein_id =>
      Some (protein_id +:+ skip (String.length first) data
            +:+ PyStr.chr PyStr.LF)
  | None => None
  end.


(** The file at [p], when it exists. *)
Definition file_at (w : world) (p : path) : option string :=
  fs w !! p.1 ≫= (.!! p.2).


(** A string with no blank at either end. *)
Definition trimmed (s : string) : Prop :=
  PyStr.lstrip s = s ∧ PyStr.rstrip s = s.




(** The normalized records of the PSSM family: raw lines and identifiers
    taken in lockstep. *)
Definition possum_records (lines : list string) (fasta_dict : PyDict.t)
    : list string :=
  (λ x, possum_record x.1 x.2) <$> zip lines (PyDict.keys fasta_dict).

(** The data lines of the encoding tool's output. *)
Definition data_lines (lines : list string) : list string :=
  filter (λ line, is_comment line = false) lines.

(** What the encoding-family normalizer writes for one raw line. *)
Definition iFeature_written (index : Z) (line : string) : string :=
  if is_comment line then ""
  else default "" (iFeature_record index line).

(** A computation that makes no network and no shell call. *)
Definition silent {A} (m : M A) : Prop := ∀ w, calls (m w).2 = calls w.

(** A loop body that never falls through to the next iteration. *)
Definition returning {R} (m : M (flow R)) : Prop :=
  ∀ w, (m w).1 ≠ Ret Next.

(** The tree with [content] as the file at [p]. *)
Definition put_file (p : path) (content : string) (t : tree) : tree :=
  <[p.1 := <[p.2 := content]> (default ∅ (t !! p.1))]> t.

(** The tree without the file at [p]. *)
Definition drop_file (p : path) (t : tree) : tree :=
  <[p.1 := delete p.2 (default ∅ (t !! p.1))]> t.

(** The same world with another tree. *)
Definition with_fs (w : world) (t : tree) : world := World t (calls w).

(** The lines of a file made of records: each header line followed by its
    sequence lines. *)
Definition record_lines (records : list (string * list string))
    : list string :=
  foldr (λ r acc, r.1 :: r.2 ++ acc) [] records.

(** The identifiers of the headers of a list of records. *)
Definition record_ids (index : Z) (records : list (string * list string))
    : option (list string) :=
  mapM (λ r, header_identifier index (header_of r.1)) records.

(** A record: a header line followed by sequence lines. *)
Definition is_record (r : string * list string) : Prop :=
  is_header r.1 = true ∧ Forall (λ line, is_sequence_line line = true) r.2.

(** [c in s] for a character. *)
Fixpoint has_char (c : ascii) (s : string) : bool :=
  match s with
  | EmptyString => false
  | String c' s' => Ascii.eqb c' c || has_char c s'
  end.

(** A string without line feed. *)
Definition no_lf (s : string) : Prop := has_char PyStr.LF s = false.

(** A string whose only line feed, if any, is its last character. *)
Fixpoint lf_only_last (s : string) : bool :=
  match s with
  | EmptyString => true
  | String c s' =>
      if Ascii.eqb c PyStr.LF then PyStr.is_empty s' else lf_only_last s'
  end.

(** A string without carriage return. *)
Definition no_cr (s : string) : Prop := has_char PyStr.CR s = false.

(** An entry of the mapping without line feed in key or value. *)
Definition clean_entry (kv : string * string) : Prop :=
  no_lf kv.1 ∧ no_lf kv.2.

(** The executable the platform selects, if any. *)
Definition psiblast_exe (E : env) : option string :=
  if contains "Linux" (platform_platform E) then Some "psiblast"
  else if contains "Darwin" (platform_platform E) then Some "psiblastMAC"
  else None.

(** The shell call that regenerates the matrix of one single-sequence
    file. *)
Definition psiblast_call (E : env) (exe pssm_dir filename : string) : call :=
  OsSystem
    (psiblast_command E exe
       (path_str (path_single_fastas E, filename))
       (path_str (pssm_dir,
                  PyStr.strip (before_first "." filename) +:+ ".pssm"))).

(** The shell calls for a listing of the scratch directory. *)
Definition psiblast_calls (E : env) (pssm_dir : string)
    (names : list string) : list call :=
  match psiblast_exe E with
  | Some exe => psiblast_call E exe pssm_dir <$> names
  | None => []
  end.


Definition matrix_file (E : env) (prot_id : string) : path :=
  (path_to_folder E +:+ "/pssm_files", prot_id +:+ ".pssm").








(** The directory that holds the scratch directory of the single-sequence
    files. *)
Definition temp_folder (E : env) : string :=
  path_to_folder E +:+ "/temp_folder".










(** A record in normal form: an identifier without tab or ['|'], then
    the tab-led feature values, then a line feed; no other line feed and
    no carriage return, no blank at either end of identifier and values
    together, no ['#'] at the start. *)
Definition normalized_record (r : string) : Prop :=
  ∃ prot_id rest,
    r = (prot_id +:+ rest) +:+ PyStr.chr PyStr.LF
    ∧ has_char PyStr.TAB prot_id = false
    ∧ has_char "|" prot_id = false
    ∧ (rest = "" ∨ ∃ rest', rest = String PyStr.TAB rest')
    ∧ no_lf (prot_id +:+ rest)
    ∧ no_cr (prot_id +:+ rest)
    ∧ trimmed (prot_id +:+ rest)
    ∧ is_comment r = false.

End Spec.

(** ** Sample inputs *)

Module Sample.

Definition nl (s : string) : string := s +:+ PyStr.chr PyStr.LF.

(** A Linux install whose remote endpoint has no matrix and whose shell
    commands leave the file system alone. *)
Definition quiet : env :=
  Env "/opt/profab" "Linux-5.15.0-x86_64" (λ _, HttpError) (λ _ t, t)
      elements (λ X, reflexivity (elements X)).

Definition pssm_dir : string := "/opt/profab/pssm_files".

(** The matrix directory holds [O27002.pssm]. *)
Definition one_matrix : world :=
  World {[ pssm_dir := {[ "O27002.pssm" := "matrix" ]} ]} [].

(** A FASTA file of three proteins. *)
Definition fasta3 : string :=
  nl ">sp|O27002|Y1456_METTH Uncharacterized protein"
  +:+ nl "MKVLA" +:+ nl "GGT"
  +:+ nl ">sp|P12345|AATM_RABIT Aspartate aminotransferase"
  +:+ nl "SSWWA"
  +:+ nl ">sp|Q9Y6K9|NEMO_HUMAN" +:+ nl "MNRHL".

(** The default input folder holds [sample.fasta]. *)
Definition with_fasta : world :=
  World {[ "input_folder" := {[ "sample.fasta" := fasta3 ]} ]} [].

Definition temp_file : path :=
  ("/opt/profab/temp_folder/temp_output_folder", "sample_aac_pssm.txt").

Definition output_file : path :=
  ("feature_extraction_output/input_folder", "sample_aac_pssm.txt").

(** The tool left [raw] as its output; the output folder exists. *)
Definition after_tool (raw : string) : world :=
  World {[ temp_file.1 := {[ temp_file.2 := raw ]};
           output_file.1 := ∅ ]} [].


Definition two_proteins : PyDict.t :=
  [("O27002", "MKVLAGGT"); ("P12345", "SSWWA")].

(** Everything a PSSM-family run needs: the FASTA file, a matrix for each
    of its three proteins, the folder for raw outputs. *)
Definition ready : world :=
  World {[ "input_folder" := {[ "sample.fasta" := fasta3 ]};
           pssm_dir := {[ "O27002.pssm" := "matrix";
                          "P12345.pssm" := "matrix";
                          "Q9Y6K9.pssm" := "matrix" ]};
           temp_file.1 := ∅ ]} [].

(** The command line of the PSSM tool for one descriptor. *)
Definition possum_cmd (feat : string) : string :=
  "python /opt/profab/POSSUM_Standalone_Toolkit/src/possum.py"
  +:+ " -i input_folder/sample.fasta"
  +:+ " -o /opt/profab/temp_folder/temp_output_folder/sample_" +:+ feat
  +:+ ".txt -t " +:+ feat +:+ " -p /opt/profab/pssm_files".

Definition possum_names : list string :=
  ["aac_pssm"; "d_fpssm"; "smoothed_pssm"; "ab_pssm"; "pssm_composition";
   "rpm_pssm"; "s_fpssm"; "dpc_pssm"; "k_separated_bigrams_pssm"; "eedp";
   "tpc"; "edp"; "rpssm"; "pse_pssm"; "dp_pssm"; "pssm_ac"; "pssm_cc";
   "aadp_pssm"; "aatp"; "medp"; "tri_gram_pssm"].

(** A PSSM tool that works: asked for a descriptor it knows, it leaves
    three raw lines, one per protein, at the output path. *)
Definition run_tool (cmd : string) (t : tree) : tree :=
  foldr (λ feat t',
           if decide (cmd = possum_cmd feat)
           then Spec.put_file (temp_file.1, "sample_" +:+ feat +:+ ".txt")
                  (nl "0.1,0.2" +:+ nl "0.3,0.4" +:+ nl "0.5,0.6") t'
           else t')
        t possum_names.

Definition tool : env :=
  Env "/opt/profab" "Linux-5.15.0-x86_64" (λ _, HttpError) run_tool
      elements (λ X, reflexivity (elements X)).

(** Identifier [A] in the first and in the third of three records. *)
Definition fasta_aba : list string :=
  [nl ">sp|A"; nl "AAA"; nl ">sp|B"; nl "BBB"; nl ">sp|A"; nl "CCC"].

(** The empty identifier in the first and in the second of three
    records. *)
Definition fasta_empty_twice : list string :=
  [nl ">sp|"; nl "AAA"; nl ">sp|"; nl "CCC"; nl ">sp|D"; nl "DDD"].

(** The three records of [fasta3]. *)
Definition records3 : list (string * list string) :=
  [(nl ">sp|O27002|Y1456_METTH Uncharacterized protein", [nl "MKVLA"; nl "GGT"]);
   (nl ">sp|P12345|AATM_RABIT Aspartate aminotransferase", [nl "SSWWA"]);
   (nl ">sp|Q9Y6K9|NEMO_HUMAN", [nl "MNRHL"])].

(** A file without any header line. *)
Definition headless : world :=
  World {[ "input_folder" := {[ "sample.fasta" := nl "MKVLA" +:+ nl "GGT" ]} ]} [].

(** A file whose second header has a single field. *)
Definition short_header : world :=
  World {[ "input_folder" :=
             {[ "sample.fasta" := nl ">sp|O27002|x" +:+ nl "MKVLA"
                                  +:+ nl ">P12345" +:+ nl "GGT" ]} ]} [].

(** The matrix of [P12345.2] is there, under its full name. *)
Definition dotted_matrix : world :=
  World {[ pssm_dir := {[ "P12345.2.pssm" := "matrix" ]} ]} [].

(** Two single-sequence files wait in the scratch directory. *)
Definition scratch : world :=
  World {[ "/opt/profab/temp_folder/single_fastas" :=
             {[ "O27002.fasta" := nl ">sp|O27002" +:+ nl "MKVLAGGT";
                "P12345.fasta" := nl ">sp|P12345" +:+ nl "SSWWA" ]};
           pssm_dir := ∅ ]} [].



(** An empty matrix directory. *)
Definition no_matrix : world := World {[ pssm_dir := ∅ ]} [].



(** The matrix of [P12345.2] is there, under the name the downloader gives
    it, and so is the folder for temporary files. *)
Definition dotted_ready : world :=
  World {[ pssm_dir := {[ "P12345.2.pssm" := "matrix" ]};
           "/opt/profab/temp_folder" := ∅ ]} [].

(** A platform string of macOS as Python 3.8 and later report it. *)
Definition macos : env :=
  Env "/opt/profab" "macOS-14.5-arm64-arm-64bit" (λ _, HttpError) (λ _ t, t)
      elements (λ X, reflexivity (elements X)).




(** Raw output of the encoding tool whose second data line has a first
    field without ['|']. *)
Definition raw_broken : string :=
  nl ("sp|O27002|Y1456_METTH" +:+ PyStr.chr PyStr.TAB +:+ "0.1")
  +:+ nl ("P12345" +:+ PyStr.chr PyStr.TAB +:+ "0.3")
  +:+ nl ("sp|Q9Y6K9|NEMO_HUMAN" +:+ PyStr.chr PyStr.TAB +:+ "0.5").

(** [fasta3] after two stray sequence lines. *)
Definition with_stray_lines : world :=
  World {[ "input_folder" :=
             {[ "sample.fasta" := nl "GGGG" +:+ nl "TTTT" +:+ fasta3 ]} ]} [].

(** A first record whose header has an empty second field. *)
Definition with_empty_id : world :=
  World {[ "input_folder" :=
             {[ "sample.fasta" := nl ">sp||unnamed" +:+ nl "GGGG" +:+ fasta3 ]} ]}
        [].


(** Two records as the encoding-family normalizer writes them. *)
Definition normalized : list string :=
  [nl ("O27002" +:+ PyStr.chr PyStr.TAB +:+ "0.1"
       +:+ PyStr.chr PyStr.TAB +:+ "0.2");
   nl ("P12345" +:+ PyStr.chr PyStr.TAB +:+ "0.3"
       +:+ PyStr.chr PyStr.TAB +:+ "0.4")].

End Sample.

(** * Theorems *)

(** ** Strings *)

Lemma split_cons sep s : ∃ f fs, PyStr.split sep s = f :: fs.
Proof.
  induction s as [|c s IH]; simpl; [by eauto|].
  destruct (Ascii.eqb c sep); [by eauto|].
  destruct IH as (f & fs & ->). eauto.
Qed.

Lemma split_first sep s :
  ∃ fs, PyStr.split sep s = Spec.before_first sep s :: fs.
Proof.
  induction s as [|c s IH]; simpl; [by eauto|].
  destruct (Ascii.eqb c sep); [by eauto|].
  destruct IH as (fs & ->). eauto.
Qed.

Lemma index_0_cons {A} (x : A) l : PyStr.index (x :: l) 0 = Some x.
Proof.
  unfold PyStr.index. simpl length.
  replace (0 <=? 0) with true by reflexivity.
  replace (0 <? Z.of_nat (S (length l))) with true
    by (symmetry; apply Z.ltb_lt; lia).
  reflexivity.
Qed.

Lemma before_dot_spec file :
  before_dot file = Ret (Spec.before_first "." file).
Proof.
  unfold before_dot. destruct (split_first "." file) as (fs & ->).
  by rewrite index_0_cons.
Qed.

Lemma lines_of_nonempty s : Forall (λ l, l ≠ "") (PyStr.lines_of s).
Proof.
  induction s as [|c s IH]; simpl; [constructor|].
  destruct (Ascii.eqb c PyStr.LF).
  - constructor; [discriminate | exact IH].
  - destruct (PyStr.lines_of s) as [|l ls].
    + constructor; [discriminate | constructor].
    + constructor; [discriminate | exact (Forall_inv_tail IH)].
Qed.

Lemma file_lines_nonempty s : Forall (λ l, l ≠ "") (PyStr.file_lines s).
Proof. apply lines_of_nonempty. Qed.

(** Without carriage return, text-mode reading delivers the stored
    characters. *)
Lemma universal_newlines_plain s :
  Spec.no_cr s → PyStr.universal_newlines s = s.
Proof.
  unfold Spec.no_cr. induction s as [|c s IH]; [done|]. simpl.
  destruct (Ascii.eqb c PyStr.CR); [done|]. simpl.
  intros Hs. by rewrite IH.
Qed.

Lemma file_lines_plain s :
  Spec.no_cr s → PyStr.file_lines s = PyStr.lines_of s.
Proof. intros Hs. unfold PyStr.file_lines. by rewrite universal_newlines_plain. Qed.

(** ** The monad *)

Lemma bind_ret_l {A B} (a : A) (k : A → M B) w : bind (ret a) k w = k a w.
Proof. reflexivity. Qed.

Lemma bind_eq {A B} (m : M A) (k : A → M B) w a w' :
  m w = (Ret a, w') → bind m k w = k a w'.
Proof. unfold bind. by intros ->. Qed.

Lemma bind_raise {A B} (m : M A) (k : A → M B) w e w' :
  m w = (Raise e, w') → bind m k w = (Raise e, w').
Proof. unfold bind. by intros ->. Qed.

(** ** The missing-matrix resolver *)

Lemma listing_ids_spec files acc :
  listing_ids files acc
  = Ret (acc ∪ list_to_set (Spec.before_first "." <$> files)).
Proof.
  revert acc. induction files as [|file rest IH]; intros acc; simpl.
  - f_equal. by rewrite (right_id_L ∅ (∪)).
  - rewrite before_dot_spec, IH. f_equal.
    symmetry. apply (assoc_L (∪)).
Qed.

Lemma enum_elem_of (E : env) (X : gset string) x : x ∈ enum E X ↔ x ∈ X.
Proof. by rewrite (enum_perm E X), elem_of_elements. Qed.

Lemma enum_set (E : env) (X : gset string) : list_to_set (enum E X) = X.
Proof.
  apply set_eq. intros x. by rewrite elem_of_list_to_set, enum_elem_of.
Qed.

Lemma enum_NoDup (E : env) (X : gset string) : NoDup (enum E X).
Proof. rewrite (enum_perm E X). apply NoDup_elements. Qed.

Lemma enum_empty (E : env) : enum E ∅ = [].
Proof.
  apply Permutation_nil_r. rewrite (enum_perm E ∅). by rewrite elements_empty.
Qed.

Lemma listing_present (E : env) (entries : gmap string string) :
  (list_to_set (Spec.before_first "." <$> enum E (dom entries)) : gset string)
  = Spec.present entries.
Proof.
  apply set_eq. intros x. unfold Spec.present.
  rewrite elem_of_list_to_set, list_elem_of_fmap, elem_of_map.
  split; intros (y & -> & Hy); exists y; (split; [reflexivity|]).
  - by apply enum_elem_of in Hy.
  - by apply enum_elem_of.
Qed.

Lemma find_pssm_missing_run (E : env) ids dir w entries :
  fs w !! dir = Some entries →
  find_pssm_missing_proteins E ids dir w
  = (Ret (enum E (ids ∖ Spec.present entries)), w).
Proof.
  intros Hdir. unfold find_pssm_missing_proteins, Os.listdir, Os.get_fs, bind.
  rewrite Hdir. simpl. rewrite listing_ids_spec. simpl.
  rewrite listing_present. by rewrite (left_id_L ∅ (∪)).
Qed.

(** C2. On an existing matrix directory the resolver raises nothing, changes
    nothing and returns, as a duplicate-free list, exactly [ids - present];
    all of [ids] when the directory is empty, nothing when [ids] is. *)
Theorem find_pssm_missing_proteins_difference
    (E : env) (ids : gset string) (dir : string) (w : world)
    (entries : gmap string string) :
  fs w !! dir = Some entries →
  ∃ missing : list string,
    find_pssm_missing_proteins E ids dir w = (Ret missing, w)
    ∧ NoDup missing
    ∧ (list_to_set missing : gset string) = ids ∖ Spec.present entries
    ∧ (entries = ∅ → (list_to_set missing : gset string) = ids)
    ∧ (ids = ∅ → missing = []).
Proof.
  intros Hdir. exists (enum E (ids ∖ Spec.present entries)).
  split; [by apply find_pssm_missing_run|].
  split; [apply enum_NoDup|].
  split; [apply enum_set|].
  split.
  - intros ->. rewrite enum_set. unfold Spec.present.
    rewrite dom_empty_L, set_map_empty. set_solver.
  - intros ->. replace (∅ ∖ Spec.present entries) with (∅ : gset string)
      by set_solver.
    apply enum_empty.
Qed.

Lemma find_pssm_missing_proteins_difference_witness :
  ∃ missing : list string,
    find_pssm_missing_proteins Sample.quiet {[ "O27002"; "P12345" ]}
      Sample.pssm_dir Sample.one_matrix = (Ret missing, Sample.one_matrix)
    ∧ NoDup missing
    ∧ (list_to_set missing : gset string)
      = {[ "O27002"; "P12345" ]} ∖ Spec.present {[ "O27002.pssm" := "matrix" ]}
    ∧ (({[ "O27002.pssm" := "matrix" ]} : gmap string string) = ∅ →
       (list_to_set missing : gset string) = {[ "O27002"; "P12345" ]})
    ∧ (({[ "O27002"; "P12345" ]} : gset string) = ∅ → missing = []).
Proof.
  apply (find_pssm_missing_proteins_difference Sample.quiet
           {[ "O27002"; "P12345" ]} Sample.pssm_dir Sample.one_matrix
           {[ "O27002.pssm" := "matrix" ]}).
  reflexivity.
Defined.

(** ** The descriptor vocabularies *)

(** C5, as stated, fails: the PSSM-family vocabulary does not have 20
    concrete names and the encoding-family vocabulary does not have 17. *)
Lemma vocabulary_sizes_20_17_fail :
  ¬ (size (POSSUM_desc_list init_default ∖ {["all_POSSUM"]}) = 20%nat
     ∧ size (iFeature_desc_list init_default ∖ {["all_iFeature"]}) = 17%nat).
Proof. intros [H _]. vm_compute in H. discriminate H. Qed.

(** C5, amended. Whatever the constructor is given, the PSSM-family
    vocabulary is 21 concrete names plus the alias [all_POSSUM], and the
    encoding-family vocabulary is 18 concrete names plus the alias
    [all_iFeature]. *)
Theorem vocabulary_sizes (feature : string) (place : Z) (folder name : string) :
  let self := init feature place folder name in
  "all_POSSUM" ∈ POSSUM_desc_list self
  ∧ size (POSSUM_desc_list self ∖ {["all_POSSUM"]}) = 21%nat
  ∧ size (POSSUM_desc_list self) = 22%nat
  ∧ "all_iFeature" ∈ iFeature_desc_list self
  ∧ size (iFeature_desc_list self ∖ {["all_iFeature"]}) = 18%nat
  ∧ size (iFeature_desc_list self) = 19%nat.
Proof.
  simpl. repeat split; try (vm_compute; reflexivity);
    apply bool_decide_unpack; vm_compute; exact I.
Qed.

(** ** Dictionaries *)

Lemma append_cons c s t : String c s +:+ t = String c (s +:+ t).
Proof. reflexivity. Qed.

Lemma append_assoc s t u : (s +:+ t) +:+ u = s +:+ (t +:+ u).
Proof.
  induction s as [|c s IH]; [reflexivity|].
  rewrite !append_cons. by rewrite IH.
Qed.

Lemma append_nil_r s : s +:+ "" = s.
Proof.
  induction s as [|c s IH]; [reflexivity|]. by rewrite append_cons, IH.
Qed.


Lemma mem_true k d : PyDict.mem k d = true ↔ k ∈ PyDict.keys d.
Proof. unfold PyDict.mem. apply bool_decide_eq_true. Qed.

Lemma mem_false k d : PyDict.mem k d = false ↔ k ∉ PyDict.keys d.
Proof. unfold PyDict.mem. apply bool_decide_eq_false. Qed.

Lemma get_set_eq k v d : PyDict.get k (PyDict.set k v d) = Some v.
Proof.
  induction d as [|[k' v'] d IH]; simpl.
  - by rewrite decide_True.
  - destruct (decide (k' = k)) as [->|Hne]; simpl.
    + by rewrite decide_True.
    + by rewrite decide_False.
Qed.

Lemma get_set_ne k k' v d :
  k ≠ k' → PyDict.get k' (PyDict.set k v d) = PyDict.get k' d.
Proof.
  intros Hne. induction d as [|[k0 v0] d IH]; simpl.
  - by rewrite decide_False.
  - destruct (decide (k0 = k)) as [->|Hne0]; simpl.
    + by rewrite !decide_False.
    + by rewrite IH.
Qed.

Lemma get_is_Some k d : is_Some (PyDict.get k d) ↔ k ∈ PyDict.keys d.
Proof.
  unfold PyDict.keys. induction d as [|[k0 v0] d IH]; csimpl.
  - split; [by intros [? ?] | by intros ?%elem_of_nil].
  - destruct (decide (k0 = k)) as [->|Hne].
    + split; [intros _; apply list_elem_of_here | by eauto].
    + rewrite IH, elem_of_cons. naive_solver.
Qed.

(** ** The FASTA parser *)

Lemma is_header_inv line :
  Spec.is_header line = true → ∃ rest, line = String ">" rest.
Proof.
  destruct line as [|c rest]; [discriminate|]. simpl.
  intros ->%Ascii.eqb_eq. eauto.
Qed.

Lemma header_strip line :
  Spec.is_header line = true →
  PyStr.strip line = String ">" (PyStr.rstrip (PyStr.tail line)).
Proof.
  intros [rest ->]%is_header_inv. reflexivity.
Qed.

(** The slice [prot_id[1:]] removes exactly the marker. *)
Lemma header_field_code place line :
  Spec.is_header line = true →
  match PyStr.index (PyStr.split "|" (PyStr.strip line)) place with
  | Some f => Some (if place =? 0 then PyStr.tail f else f)
  | None => None
  end = Spec.header_identifier place (Spec.header_of line).
Proof.
  intros Hh. unfold Spec.header_identifier, Spec.pipe_field, Spec.header_of.
  rewrite (header_strip _ Hh).
  destruct (place =? 0) eqn:Hp; [|reflexivity].
  apply Z.eqb_eq in Hp as ->. simpl PyStr.split.
  replace (Ascii.eqb ">" "|") with false by reflexivity.
  destruct (split_cons "|" (PyStr.rstrip (PyStr.tail line))) as (f & fs & ->).
  by rewrite index_0_cons.
Qed.

Lemma fasta_step_header place st line a :
  Spec.is_header line = true →
  Spec.header_identifier place (Spec.header_of line) = Some a →
  fasta_step place st line
  = Ret (let d1 := if decide (prot_id st = "") then fasta_dict st
                   else PyDict.set (prot_id st) (sequence st) (fasta_dict st) in
         if PyDict.mem a d1 then FastaState d1 (sequence st) a
         else FastaState (PyDict.set a "" d1) "" a).
Proof.
  intros Hh Hid. pose proof (header_field_code place line Hh) as Hc.
  rewrite Hid in Hc. destruct (is_header_inv _ Hh) as [rest ->].
  unfold fasta_step, fasta_header. simpl PyStr.head.
  replace (Ascii.eqb ">" ">") with true by reflexivity.
  destruct (PyStr.index _ place) as [f|]; [|discriminate].
  injection Hc as <-. simpl. by destruct (PyDict.mem _ _).
Qed.

Lemma fasta_step_sequence place st line :
  Spec.is_sequence_line line = true →
  fasta_step place st line
  = Ret (FastaState (fasta_dict st) (sequence st +:+ PyStr.strip line)
           (prot_id st)).
Proof.
  unfold Spec.is_sequence_line, fasta_step.
  destruct line as [|c rest]; [discriminate|]. simpl.
  by intros ->%negb_true_iff.
Qed.

Lemma fasta_loop_app place l1 l2 st :
  fasta_loop place (l1 ++ l2) st
  = match fasta_loop place l1 st with
    | Ret st' => fasta_loop place l2 st'
    | Raise e => Raise e
    end.
Proof.
  revert st. induction l1 as [|line l1 IH]; intros st; simpl; [reflexivity|].
  destruct (fasta_step place st line); [apply IH | reflexivity].
Qed.

Lemma fasta_loop_sequence place lines st :
  Forall (λ line, Spec.is_sequence_line line = true) lines →
  fasta_loop place lines st
  = Ret (FastaState (fasta_dict st) (sequence st +:+ Spec.sequence_of lines)
           (prot_id st)).
Proof.
  intros Hall. revert st. induction Hall as [|line lines Hline _ IH]; intros st.
  - simpl. unfold Spec.sequence_of. simpl. rewrite append_nil_r. by destruct st.
  - simpl. rewrite (fasta_step_sequence _ _ _ Hline), IH. simpl.
    unfold Spec.sequence_of. rewrite fmap_cons. simpl PyStr.concat.
    by rewrite append_assoc.
Qed.


Lemma header_ids_other place line rest :
  Spec.is_header line = false →
  Spec.header_ids place (line :: rest) = Spec.header_ids place rest.
Proof.
  intros Hh. unfold Spec.header_ids. rewrite filter_cons_False; [done|].
  by rewrite Hh.
Qed.

Lemma sequence_line_iff line :
  line ≠ "" → Spec.is_header line = false → Spec.is_sequence_line line = true.
Proof.
  unfold Spec.is_sequence_line. intros Hne ->. by destruct line.
Qed.










(** ** Repeated identifiers *)

Lemma fasta_loop_avoids place a lines : ∀ st,
  Forall (Spec.avoids place a) lines →
  prot_id st ≠ a →
  ∃ st', fasta_loop place lines st = Ret st'
    ∧ prot_id st' ≠ a
    ∧ PyDict.get a (fasta_dict st') = PyDict.get a (fasta_dict st).
Proof.
  induction lines as [|line rest IH]; intros st Hall Hp; [by exists st|].
  apply Forall_cons in Hall as [[Hne Hline] Hall]. simpl.
  destruct (Spec.is_header line) eqn:Hh.
  - destruct (Hline eq_refl) as (b & Hb & Hba).
    rewrite (fasta_step_header _ _ _ _ Hh Hb).
    set (d1 := if decide (prot_id st = "") then fasta_dict st
               else PyDict.set (prot_id st) (sequence st) (fasta_dict st)).
    assert (PyDict.get a d1 = PyDict.get a (fasta_dict st)) as Hd1.
    { unfold d1. destruct (decide (prot_id st = "")); [done|].
      by apply get_set_ne. }
    set (st1 := if PyDict.mem b d1 then FastaState d1 (sequence st) b
                else FastaState (PyDict.set b "" d1) "" b).
    assert (prot_id st1 = b
            ∧ PyDict.get a (fasta_dict st1) = PyDict.get a (fasta_dict st))
      as [Hp1 Hg1].
    { unfold st1. destruct (PyDict.mem b d1); simpl; [done|].
      by rewrite get_set_ne. }
    destruct (IH st1 Hall) as (st' & Hrun & Hp' & Hg'); [by rewrite Hp1|].
    exists st'. by rewrite Hg', Hg1.
  - rewrite (fasta_step_sequence _ _ _ (sequence_line_iff _ Hne Hh)).
    destruct (IH (FastaState (fasta_dict st)
                    (sequence st +:+ PyStr.strip line) (prot_id st)) Hall Hp)
      as (st' & Hrun & Hp' & Hg').
    by exists st'.
Qed.

(** C10, as stated, fails: with another record between the two occurrences
    of [A], the first record's sequence [AAA] is dropped and the value of
    [A] starts with the sequence of the record in between.  It fails as
    well for the empty identifier, which the parser never stores when a
    header follows: two adjacent records headed [>sp|], followed by a
    third record, leave the empty identifier with the empty sequence. *)
Lemma repeated_identifier_merge_fails :
  (∃ fasta_dict,
     read_fasta_lines 1 Sample.fasta_aba = Ret fasta_dict
     ∧ PyDict.get "A" fasta_dict = Some "BBBCCC"
     ∧ PyDict.get "A" fasta_dict
       ≠ Some (Spec.sequence_of [Sample.nl "AAA"]
               +:+ Spec.sequence_of [Sample.nl "CCC"]))
  ∧ (∃ fasta_dict,
       read_fasta_lines 1 Sample.fasta_empty_twice = Ret fasta_dict
       ∧ fasta_dict = [("", ""); ("D", "DDD")]
       ∧ PyDict.get "" fasta_dict
         ≠ Some (Spec.sequence_of [Sample.nl "AAA"]
                 +:+ Spec.sequence_of [Sample.nl "CCC"])).
Proof.
  split.
  - exists [("A", "BBBCCC"); ("B", "BBB")].
    split; [reflexivity|]. split; [reflexivity|].
    vm_compute. discriminate.
  - exists [("", ""); ("D", "DDD")].
    split; [reflexivity|]. split; [reflexivity|].
    vm_compute. discriminate.
Qed.

Lemma get_None_mem k d : PyDict.get k d = None → PyDict.mem k d = false.
Proof.
  intros Hg. apply mem_false. intros Hin%get_is_Some.
  rewrite Hg in Hin. by destruct Hin.
Qed.

Lemma get_Some_mem k d v : PyDict.get k d = Some v → PyDict.mem k d = true.
Proof. intros Hg. apply mem_true, get_is_Some. by rewrite Hg. Qed.

(** C10, amended. When the same non-empty identifier [a] heads two
    records that follow one another, with no header of [a] before or after
    them and the identifier field present in every other header, the
    mapping's final value for [a] is the first record's sequence followed
    by the second record's. *)
Theorem repeated_identifier_adjacent
    (place : Z) (a : string)
    (pre : list string) (h1 : string) (s1 : list string)
    (h2 : string) (s2 : list string) (post : list string) :
  a ≠ "" →
  Forall (Spec.avoids place a) pre →
  Spec.is_header h1 = true →
  Spec.header_identifier place (Spec.header_of h1) = Some a →
  Forall (λ line, Spec.is_sequence_line line = true) s1 →
  Spec.is_header h2 = true →
  Spec.header_identifier place (Spec.header_of h2) = Some a →
  Forall (λ line, Spec.is_sequence_line line = true) s2 →
  Forall (Spec.avoids place a) post →
  (∀ line post', post = line :: post' → Spec.is_header line = true) →
  ∃ fasta_dict,
    read_fasta_lines place (pre ++ h1 :: s1 ++ h2 :: s2 ++ post)
    = Ret fasta_dict
    ∧ PyDict.get a fasta_dict
      = Some (Spec.sequence_of s1 +:+ Spec.sequence_of s2).
Proof.
  intros Ha Hpre Hh1 Hid1 Hs1 Hh2 Hid2 Hs2 Hpost Hfirst.
  unfold read_fasta_lines. rewrite fasta_loop_app.
  destruct (fasta_loop_avoids place a pre (FastaState [] "" "") Hpre)
    as (st1 & -> & Hp1 & Hg1); [by intros <-|].
  simpl in Hg1. cbn [fasta_loop].
  rewrite (fasta_step_header _ _ _ _ Hh1 Hid1). cbv zeta.
  set (d1 := if decide (prot_id st1 = "") then fasta_dict st1
             else PyDict.set (prot_id st1) (sequence st1) (fasta_dict st1)).
  assert (PyDict.get a d1 = None) as Hd1.
  { unfold d1. destruct (decide (prot_id st1 = "")); [done|].
    by rewrite get_set_ne. }
  rewrite (get_None_mem _ _ Hd1).
  rewrite fasta_loop_app, (fasta_loop_sequence _ _ _ Hs1).
  cbn [fasta_loop fasta_dict sequence prot_id].
  rewrite (fasta_step_header _ _ _ _ Hh2 Hid2).
  cbn [fasta_dict sequence prot_id]. cbv zeta.
  rewrite (decide_False (P := a = "")) by done.
  rewrite (get_Some_mem _ _ _ (get_set_eq a _ _)).
  rewrite fasta_loop_app, (fasta_loop_sequence _ _ _ Hs2).
  cbn [fasta_dict sequence prot_id].
  change ("" +:+ Spec.sequence_of s1) with (Spec.sequence_of s1).
  set (d2 := PyDict.set a (Spec.sequence_of s1) (PyDict.set a "" d1)).
  set (seq := Spec.sequence_of s1 +:+ Spec.sequence_of s2).
  destruct post as [|line post'].
  - simpl. eexists. split; [reflexivity|]. apply get_set_eq.
  - apply Forall_cons in Hpost as [[_ Hline] Hpost].
    pose proof (Hfirst line post' eq_refl) as Hh.
    destruct (Hline Hh) as (b & Hb & Hba).
    cbn [fasta_loop]. rewrite (fasta_step_header _ _ _ _ Hh Hb).
    cbn [fasta_dict sequence prot_id]. cbv zeta.
    rewrite (decide_False (P := a = "")) by done.
    set (d3 := PyDict.set a seq d2).
    set (st3 := if PyDict.mem b d3 then FastaState d3 seq b
                else FastaState (PyDict.set b "" d3) "" b).
    assert (prot_id st3 = b ∧ PyDict.get a (fasta_dict st3) = Some seq)
      as [Hp3 Hg3].
    { unfold st3. destruct (PyDict.mem b d3); simpl.
      - split; [done | apply get_set_eq].
      - split; [done|]. rewrite get_set_ne by done. apply get_set_eq. }
    destruct (fasta_loop_avoids place a post' st3 Hpost)
      as (st' & -> & Hp' & Hg'); [by rewrite Hp3|].
    eexists. split; [reflexivity|].
    rewrite get_set_ne by done. by rewrite Hg', Hg3.
Qed.

Ltac avoids_line b :=
  split; [discriminate|];
  intros Hh; first [discriminate Hh | exists b; split; [reflexivity | discriminate]].

Lemma repeated_identifier_adjacent_witness :
  ∃ fasta_dict,
    read_fasta_lines 1
      ([Sample.nl ">sp|B"; Sample.nl "BBB"]
       ++ Sample.nl ">sp|A" :: [Sample.nl "AAA"]
       ++ Sample.nl ">sp|A" :: [Sample.nl "CCC"]
       ++ [Sample.nl ">sp|C"; Sample.nl "DDD"])
    = Ret fasta_dict
    ∧ PyDict.get "A" fasta_dict
      = Some (Spec.sequence_of [Sample.nl "AAA"]
              +:+ Spec.sequence_of [Sample.nl "CCC"]).
Proof.
  apply (repeated_identifier_adjacent 1 "A"
           [Sample.nl ">sp|B"; Sample.nl "BBB"]
           (Sample.nl ">sp|A") [Sample.nl "AAA"]
           (Sample.nl ">sp|A") [Sample.nl "CCC"]
           [Sample.nl ">sp|C"; Sample.nl "DDD"]).
  - discriminate.
  - constructor; [avoids_line "B" | constructor; [avoids_line "B" | constructor]].
  - reflexivity.
  - reflexivity.
  - repeat constructor.
  - reflexivity.
  - reflexivity.
  - repeat constructor.
  - constructor; [avoids_line "C" | constructor; [avoids_line "C" | constructor]].
  - intros line post' [= <- _]. reflexivity.
Defined.

(** ** Files *)

Lemma with_fs_id w : Spec.with_fs w (fs w) = w.
Proof. by destruct w. Qed.

Lemma file_at_dir w p c :
  Spec.file_at w p = Some c → ∃ entries, fs w !! p.1 = Some entries
                                          ∧ entries !! p.2 = Some c.
Proof.
  unfold Spec.file_at. destruct (fs w !! p.1) as [entries|]; [|discriminate].
  simpl. eauto.
Qed.

Lemma file_at_put_eq w t p c :
  Spec.file_at (Spec.with_fs w (Spec.put_file p c t)) p = Some c.
Proof.
  unfold Spec.file_at, Spec.put_file. simpl.
  rewrite lookup_insert_eq. simpl. by rewrite lookup_insert_eq.
Qed.

Lemma file_at_put_ne w t p q c :
  p ≠ q →
  Spec.file_at (Spec.with_fs w (Spec.put_file p c t)) q
  = Spec.file_at (Spec.with_fs w t) q.
Proof.
  intros Hne. unfold Spec.file_at, Spec.put_file. simpl.
  destruct (decide (p.1 = q.1)) as [Heq|Hd].
  - rewrite Heq, lookup_insert_eq. simpl.
    rewrite lookup_insert_ne.
    + by destruct (t !! q.1).
    + intros H2. apply Hne. by destruct p, q; simpl in *; subst.
  - by rewrite lookup_insert_ne.
Qed.

Lemma put_file_id w p c :
  Spec.file_at w p = Some c → Spec.put_file p c (fs w) = fs w.
Proof.
  intros (entries & Hd & He)%file_at_dir. unfold Spec.put_file.
  rewrite Hd. simpl. rewrite (insert_id entries) by done. by apply insert_id.
Qed.

Lemma put_file_put_file p c1 c2 t :
  Spec.put_file p c2 (Spec.put_file p c1 t) = Spec.put_file p c2 t.
Proof.
  unfold Spec.put_file. rewrite lookup_insert_eq. simpl.
  by rewrite insert_insert_eq, insert_insert_eq.
Qed.

Lemma read_run w p c : Spec.file_at w p = Some c → Os.read p w = (Ret c, w).
Proof.
  intros Hf. unfold Os.read, Os.get_fs, bind. simpl.
  unfold Spec.file_at in Hf. by rewrite Hf.
Qed.

Lemma open_w_run w p :
  is_Some (fs w !! p.1) →
  Os.open_w p w = (Ret tt, Spec.with_fs w (Spec.put_file p "" (fs w))).
Proof.
  intros [entries Hd]. unfold Os.open_w, Os.get_fs, Os.put_fs, bind. simpl.
  unfold Spec.put_file. by rewrite Hd.
Qed.

Lemma write_run w p c s :
  Spec.file_at w p = Some c →
  Os.write p s w = (Ret tt, Spec.with_fs w (Spec.put_file p (c +:+ s) (fs w))).
Proof.
  intros (entries & Hd & He)%file_at_dir.
  unfold Os.write, Os.get_fs, Os.put_fs, bind. simpl.
  unfold Spec.put_file. by rewrite Hd, He.
Qed.

Lemma remove_run w p c :
  Spec.file_at w p = Some c →
  Os.remove p w = (Ret tt, Spec.with_fs w (Spec.drop_file p (fs w))).
Proof.
  intros (entries & Hd & He)%file_at_dir.
  unfold Os.remove, Os.get_fs, Os.put_fs, bind. simpl.
  unfold Spec.drop_file. rewrite Hd. simpl.
  rewrite bool_decide_eq_true_2; [done | by rewrite He].
Qed.

Lemma file_at_drop_eq w t p :
  Spec.file_at (Spec.with_fs w (Spec.drop_file p t)) p = None.
Proof.
  unfold Spec.file_at, Spec.drop_file. simpl.
  rewrite lookup_insert_eq. simpl. by rewrite lookup_delete_eq.
Qed.

Lemma file_at_drop_ne w t p q :
  p ≠ q →
  Spec.file_at (Spec.with_fs w (Spec.drop_file p t)) q
  = Spec.file_at (Spec.with_fs w t) q.
Proof.
  intros Hne. unfold Spec.file_at, Spec.drop_file. simpl.
  destruct (decide (p.1 = q.1)) as [Heq|Hd].
  - rewrite Heq, lookup_insert_eq. simpl.
    rewrite lookup_delete_ne.
    + by destruct (t !! q.1).
    + intros H2. apply Hne. by destruct p, q; simpl in *; subst.
  - by rewrite lookup_insert_ne.
Qed.

(** A loop whose body only appends to the file at [p]. *)
Lemma for_in_writes {A} (p : path) (g : A → string)
    (body : A → M (flow unit)) (items : list A) :
  (∀ x w c, x ∈ items → Spec.file_at w p = Some c →
     body x w
     = (Ret Next, Spec.with_fs w (Spec.put_file p (c +:+ g x) (fs w)))) →
  ∀ w c, Spec.file_at w p = Some c →
    for_in items body w
    = (Ret None,
       Spec.with_fs w
         (Spec.put_file p (c +:+ PyStr.concat (g <$> items)) (fs w))).
Proof.
  induction items as [|x items IH]; intros Hbody w c Hf.
  - simpl. unfold ret. rewrite append_nil_r, (put_file_id _ _ _ Hf).
    by rewrite with_fs_id.
  - cbn [for_in].
    rewrite (bind_eq _ _ _ _ _ (Hbody x w c (list_elem_of_here _ _) Hf)).
    rewrite (IH (λ y w' c' Hy, Hbody y w' c' (list_elem_of_further _ _ _ Hy))
                _ (c +:+ g x) (file_at_put_eq _ _ _ _)).
    unfold Spec.with_fs. simpl. rewrite put_file_put_file.
    by rewrite append_assoc.
Qed.

(** ** The PSSM-family normalizer *)

Ltac unfold_monad := unfold mbind, M_bind, mret, M_ret in *.

Lemma edit_POSSUM_run (temp out : path) (fasta_dict : PyDict.t) w raw :
  temp ≠ out →
  Spec.file_at w temp = Some raw →
  is_Some (fs w !! out.1) →
  edit_extracted_features_POSSUM temp out fasta_dict w
  = (Ret tt,
     Spec.with_fs w
       (Spec.drop_file temp
          (Spec.put_file out
             (PyStr.concat (Spec.possum_records (PyStr.file_lines raw) fasta_dict))
             (fs w)))).
Proof.
  intros Hne Hraw Hout. unfold edit_extracted_features_POSSUM. unfold_monad.
  rewrite (bind_eq _ _ _ _ _ (read_run _ _ _ Hraw)).
  rewrite (bind_eq _ _ _ _ _ (open_w_run _ _ Hout)).
  set (w1 := Spec.with_fs w (Spec.put_file out "" (fs w))).
  assert (Spec.file_at w1 temp = Some raw) as Hraw1.
  { unfold w1. rewrite file_at_put_ne, with_fs_id by done. exact Hraw. }
  rewrite (bind_eq _ _ _ _ _ (read_run _ _ _ Hraw1)).
  erewrite bind_eq; cycle 1.
  { apply (for_in_writes out (λ x, Spec.possum_record x.1 x.2)) with (c := "").
    - intros [line prot_id] w' c _ Hf. simpl.
      by rewrite (bind_eq _ _ _ _ _ (write_run _ _ _ _ Hf)).
    - apply file_at_put_eq. }
  erewrite remove_run.
  - unfold w1, Spec.with_fs. simpl. by rewrite put_file_put_file.
  - rewrite file_at_put_ne, with_fs_id by done. exact Hraw1.
Qed.

Lemma possum_records_lookup lines fasta_dict i line prot_id :
  lines !! i = Some line →
  PyDict.keys fasta_dict !! i = Some prot_id →
  Spec.possum_records lines fasta_dict !! i
  = Some (Spec.possum_record line prot_id).
Proof.
  intros Hl Hk. unfold Spec.possum_records.
  rewrite list_lookup_fmap, lookup_zip_with, Hl. simpl. by rewrite Hk.
Qed.

Lemma possum_records_length lines (fasta_dict : PyDict.t) :
  length (Spec.possum_records lines fasta_dict)
  = (length lines `min` length fasta_dict)%nat.
Proof.
  unfold Spec.possum_records, PyDict.keys.
  by rewrite length_fmap, length_zip_with, length_fmap.
Qed.

Lemma rstrip_terminator s : PyStr.rstrip (s +:+ PyStr.chr PyStr.LF) = PyStr.rstrip s.
Proof.
  induction s as [|c s IH]; [reflexivity|].
  rewrite append_cons. simpl. by rewrite IH.
Qed.

Lemma lstrip_length s : (String.length (PyStr.lstrip s) ≤ String.length s)%nat.
Proof.
  induction s as [|c s IH]; simpl; [lia|].
  destruct (PyStr.is_space c); simpl; lia.
Qed.

Lemma strip_terminated body :
  Spec.trimmed body → PyStr.strip (body +:+ PyStr.chr PyStr.LF) = body.
Proof.
  intros [Hl Hr]. unfold PyStr.strip. destruct body as [|c s]; [reflexivity|].
  rewrite append_cons. simpl in Hl |- *.
  destruct (PyStr.is_space c) eqn:Hc.
  - pose proof (lstrip_length s) as Hlen. rewrite Hl in Hlen. simpl in Hlen. lia.
  - rewrite <-append_cons, rstrip_terminator. exact Hr.
Qed.











(** C3, as stated, fails: with one raw line for two proteins the normalizer
    raises nothing and writes a one-record file. *)
Lemma edit_POSSUM_short_raises_nothing :
  ∃ w',
    edit_extracted_features_POSSUM Sample.temp_file Sample.output_file
      Sample.two_proteins (Sample.after_tool (Sample.nl "0.1,0.2"))
    = (Ret tt, w')
    ∧ (length (PyStr.file_lines (Sample.nl "0.1,0.2"))
       < length Sample.two_proteins)%nat
    ∧ Spec.file_at w' Sample.output_file
      = Some (Sample.nl ("O27002" +:+ PyStr.chr PyStr.TAB +:+ "0.1"
                         +:+ PyStr.chr PyStr.TAB +:+ "0.2")).
Proof.
  eexists. split; [|split].
  - apply (edit_POSSUM_run _ _ _ _ (Sample.nl "0.1,0.2")).
    + discriminate.
    + reflexivity.
    + exists ∅. reflexivity.
  - simpl. lia.
  - rewrite file_at_drop_ne by discriminate.
    rewrite file_at_put_eq. reflexivity.
Qed.

(** C3, amended. When the raw output has fewer lines than there are
    proteins, the normalizer raises nothing: it writes one record per raw
    line, the [i]-th raw line with the [i]-th identifier, removes the raw
    file and returns. *)
Theorem edit_POSSUM_short
    (temp out : path) (fasta_dict : PyDict.t) (w : world) (raw : string) :
  temp ≠ out →
  Spec.file_at w temp = Some raw →
  is_Some (fs w !! out.1) →
  (length (PyStr.file_lines raw) < length fasta_dict)%nat →
  ∃ w' records,
    edit_extracted_features_POSSUM temp out fasta_dict w = (Ret tt, w')
    ∧ Spec.file_at w' out = Some (PyStr.concat records)
    ∧ Spec.file_at w' temp = None
    ∧ length records = length (PyStr.file_lines raw)
    ∧ (∀ i line,
         PyStr.file_lines raw !! i = Some line →
         ∃ prot_id,
           PyDict.keys fasta_dict !! i = Some prot_id
           ∧ records !! i = Some (Spec.possum_record line prot_id)).
Proof.
  intros Hne Hraw Hout Hlen.
  eexists _, (Spec.possum_records (PyStr.file_lines raw) fasta_dict).
  split; [by apply edit_POSSUM_run|].
  split; [rewrite file_at_drop_ne by done; apply file_at_put_eq|].
  split; [apply file_at_drop_eq|].
  split; [rewrite possum_records_length; lia|].
  intros i line Hl.
  destruct (lookup_lt_is_Some_2 (PyDict.keys fasta_dict) i) as [prot_id Hk].
  { apply lookup_lt_Some in Hl. unfold PyDict.keys. rewrite length_fmap. lia. }
  exists prot_id. split; [exact Hk|]. by apply possum_records_lookup.
Qed.

Lemma edit_POSSUM_short_witness :
  ∃ w' records,
    edit_extracted_features_POSSUM Sample.temp_file Sample.output_file
      Sample.two_proteins (Sample.after_tool (Sample.nl "0.1,0.2"))
    = (Ret tt, w')
    ∧ Spec.file_at w' Sample.output_file = Some (PyStr.concat records)
    ∧ Spec.file_at w' Sample.temp_file = None
    ∧ length records = 1%nat
    ∧ (∀ i line,
         PyStr.file_lines (Sample.nl "0.1,0.2") !! i = Some line →
         ∃ prot_id,
           PyDict.keys Sample.two_proteins !! i = Some prot_id
           ∧ records !! i = Some (Spec.possum_record line prot_id)).
Proof.
  apply (edit_POSSUM_short Sample.temp_file Sample.output_file
           Sample.two_proteins (Sample.after_tool (Sample.nl "0.1,0.2"))
           (Sample.nl "0.1,0.2")).
  - discriminate.
  - reflexivity.
  - exists ∅. reflexivity.
  - simpl. lia.
Defined.

(** ** The encoding-family normalizer *)

Lemma split_join sep s : ∀ f fs,
  PyStr.split sep s = f :: fs →
  s = f +:+ PyStr.concat ((λ x, PyStr.chr sep +:+ x) <$> fs).
Proof.
  induction s as [|c s IH]; intros f fs; simpl.
  - by intros [= <- <-].
  - destruct (Ascii.eqb c sep) eqn:Hc.
    + apply Ascii.eqb_eq in Hc as ->. intros [= <- <-].
      destruct (split_cons sep s) as (f' & fs' & Hs). rewrite Hs.
      rewrite (IH _ _ Hs) at 1. reflexivity.
    + destruct (split_cons sep s) as (f' & fs' & Hs). rewrite Hs.
      intros [= <- <-]. rewrite (IH _ _ Hs) at 1. reflexivity.
Qed.

Lemma skip_append f x : Spec.skip (String.length f) (f +:+ x) = x.
Proof. induction f as [|c f IH]; [by destruct x | exact IH]. Qed.

Lemma is_comment_head line c :
  PyStr.head line = Some c → Ascii.eqb c "#" = Spec.is_comment line.
Proof. destruct line; [discriminate|]. by intros [= <-]. Qed.

(** One iteration of the loop appends what [Spec.iFeature_written] says. *)
Lemma iFeature_line_run (out : path) (place : Z) line w c :
  line ≠ "" →
  (Spec.is_comment line = false → is_Some (Spec.iFeature_record place line)) →
  Spec.file_at w out = Some c →
  iFeature_line out place line w
  = (Ret Next,
     Spec.with_fs w
       (Spec.put_file out (c +:+ Spec.iFeature_written place line) (fs w))).
Proof.
  intros Hne Hrec Hf. unfold iFeature_line.
  destruct line as [|c0 rest0] eqn:Hline; [done|]. rewrite <-Hline in *.
  assert (PyStr.head line = Some c0) as -> by by rewrite Hline.
  rewrite (is_comment_head line c0) by by rewrite Hline.
  unfold Spec.iFeature_written.
  destruct (Spec.is_comment line) eqn:Hc.
  - unfold ret. rewrite append_nil_r, (put_file_id _ _ _ Hf).
    by rewrite with_fs_id.
  - destruct (Hrec eq_refl) as [rec Hr]. rewrite Hr. simpl.
    unfold Spec.iFeature_record, Spec.pipe_field in Hr.
    destruct (split_first PyStr.TAB (PyStr.strip line)) as (fs' & Hsplit).
    cbv zeta. rewrite Hsplit, index_0_cons. simpl lift.
    rewrite bind_ret_l.
    destruct (PyStr.index _ place) as [protein_id|]; [|discriminate].
    injection Hr as <-. simpl lift. rewrite bind_ret_l. unfold_monad.
    rewrite (bind_eq _ _ _ _ _ (write_run _ _ _ _ Hf)).
    erewrite bind_eq; cycle 1.
    { apply (for_in_writes out (λ x, PyStr.chr PyStr.TAB +:+ x)).
      - intros x w' c' _ Hf'.
        by rewrite (bind_eq _ _ _ _ _ (write_run _ _ _ _ Hf')).
      - apply file_at_put_eq. }
    erewrite bind_eq; cycle 1.
    { apply write_run, file_at_put_eq. }
    unfold ret, Spec.with_fs. simpl. rewrite !put_file_put_file.
    do 3 f_equal. rewrite !append_assoc. do 2 f_equal.
    rewrite (split_join _ _ _ _ Hsplit) at 2. by rewrite skip_append.
Qed.

Lemma written_concat place lines : ∀ records,
  mapM (Spec.iFeature_record place) (Spec.data_lines lines) = Some records →
  PyStr.concat (Spec.iFeature_written place <$> lines) = PyStr.concat records.
Proof.
  unfold Spec.data_lines, Spec.iFeature_written.
  induction lines as [|line rest IH]; intros records.
  - by intros [= <-].
  - rewrite fmap_cons. simpl PyStr.concat.
    destruct (Spec.is_comment line) eqn:Hc.
    + rewrite filter_cons_False by (by rewrite Hc). apply IH.
    + rewrite filter_cons_True by done. csimpl.
      destruct (Spec.iFeature_record place line) as [r|]; [|discriminate].
      csimpl. destruct (mapM _ _) as [rs|]; [|discriminate].
      csimpl. intros [= <-]. simpl. by rewrite (IH rs).
Qed.

Lemma data_line_record place lines records line :
  mapM (Spec.iFeature_record place) (Spec.data_lines lines) = Some records →
  line ∈ lines → Spec.is_comment line = false →
  is_Some (Spec.iFeature_record place line).
Proof.
  intros Hm Hin Hc.
  assert (is_Some (mapM (Spec.iFeature_record place) (Spec.data_lines lines)))
    as Hall by (by rewrite Hm).
  apply mapM_is_Some in Hall. rewrite Forall_forall in Hall.
  apply (Hall line). unfold Spec.data_lines. by apply list_elem_of_filter.
Qed.

Lemma edit_iFeature_run (temp out : path) (place : Z) w raw records :
  temp ≠ out →
  Spec.file_at w temp = Some raw →
  is_Some (fs w !! out.1) →
  mapM (Spec.iFeature_record place) (Spec.data_lines (PyStr.file_lines raw))
  = Some records →
  edit_extracted_features_iFeature temp out place w
  = (Ret tt,
     Spec.with_fs w
       (Spec.drop_file temp (Spec.put_file out (PyStr.concat records) (fs w)))).
Proof.
  intros Hne Hraw Hout Hrec. unfold edit_extracted_features_iFeature.
  unfold_monad.
  rewrite (bind_eq _ _ _ _ _ (read_run _ _ _ Hraw)).
  rewrite (bind_eq _ _ _ _ _ (open_w_run _ _ Hout)).
  set (w1 := Spec.with_fs w (Spec.put_file out "" (fs w))).
  assert (Spec.file_at w1 temp = Some raw) as Hraw1.
  { unfold w1. rewrite file_at_put_ne, with_fs_id by done. exact Hraw. }
  rewrite (bind_eq _ _ _ _ _ (read_run _ _ _ Hraw1)).
  erewrite bind_eq; cycle 1.
  { apply (for_in_writes out (Spec.iFeature_written place)) with (c := "").
    - intros line w' c Hin Hf. apply iFeature_line_run; [|by eauto using data_line_record|done].
      pose proof (file_lines_nonempty raw) as Hall.
      rewrite Forall_forall in Hall. by apply Hall.
    - apply file_at_put_eq. }
  erewrite remove_run.
  - unfold w1, Spec.with_fs. simpl. rewrite put_file_put_file.
    by rewrite (written_concat _ _ _ Hrec).
  - rewrite file_at_put_ne, with_fs_id by done. exact Hraw1.
Qed.




(** ** Matrix acquisition *)

Lemma elem_of_present x (entries : gmap string string) :
  x ∈ Spec.present entries
  ↔ ∃ name, is_Some (entries !! name) ∧ Spec.before_first "." name = x.
Proof.
  unfold Spec.present. rewrite elem_of_map.
  split; intros (name & H1 & H2).
  - exists name. by rewrite <-elem_of_dom.
  - exists name. by rewrite elem_of_dom.
Qed.

(** C7, as stated, fails: the identifier [P12345.2] has its matrix file
    [P12345.2.pssm] in the matrix directory, under the very name the
    downloader gives it, and the acquisition stage still sends a GET for
    it and starts a local search. *)
Lemma dotted_identifier_fetched_again :
  let fasta_dict := [("P12345.2", "SSWWA")] in
  let run :=
    copy_form_pssm_matrices Sample.quiet fasta_dict Sample.dotted_ready in
  Spec.file_at Sample.dotted_ready (Spec.matrix_file Sample.quiet "P12345.2")
  = Some "matrix"
  ∧ run.1 = Ret tt
  ∧ calls run.2
    = [HttpGet "https://slpred.kansil.org/swissprot_pssms/P12345.2.pssm";
       OsSystem
         ("/opt/profab/ncbi-blast/psiblast"
          +:+ " -db /opt/profab/ncbi-blast/uniref50_db/uniref50.blastdb"
          +:+ " -evalue 0.001"
          +:+ " -query /opt/profab/temp_folder/single_fastas/P12345.2.fasta"
          +:+ " -out_ascii_pssm /opt/profab/pssm_files/P12345.pssm"
          +:+ "  -out /opt/profab/ncbi-blast/outfile"
          +:+ " -num_iterations 3 -comp_based_stats 1")].
Proof.
  cbv zeta. split; [|split].
  - reflexivity.
  - vm_compute. reflexivity.
  - vm_compute. reflexivity.
Qed.

(** C7, amended. When the matrix directory exists and every identifier of
    the mapping is the part before the first ['.'] of the name of some
    file in it (the resolver finds nothing missing), the acquisition stage
    returns without raising and leaves the world as it was: no network
    call, no shell call, no change to any file. *)
Theorem copy_form_pssm_matrices_idle
    (E : env) (fasta_dict : PyDict.t) (w : world)
    (entries : gmap string string) :
  fs w !! (path_to_folder E +:+ "/pssm_files") = Some entries →
  (∀ prot_id, prot_id ∈ PyDict.keys fasta_dict →
     ∃ name, is_Some (entries !! name)
             ∧ Spec.before_first "." name = prot_id) →
  copy_form_pssm_matrices E fasta_dict w = (Ret tt, w)
  ∧ find_pssm_missing_proteins E (key_set fasta_dict)
      (path_to_folder E +:+ "/pssm_files") w = (Ret [], w).
Proof.
  intros Hdir Hsub.
  assert (find_pssm_missing_proteins E (key_set fasta_dict)
            (path_to_folder E +:+ "/pssm_files") w = (Ret [], w)) as Hnone.
  { rewrite (find_pssm_missing_run _ _ _ _ _ Hdir).
    replace (key_set fasta_dict ∖ Spec.present entries) with (∅ : gset string).
    - by rewrite enum_empty.
    - symmetry. apply set_eq. intros x. rewrite elem_of_difference.
      split; [|by intros ?%not_elem_of_empty].
      intros [Hx Hn]. destruct Hn. apply elem_of_present, Hsub.
      unfold key_set in Hx. by apply elem_of_list_to_set in Hx. }
  split; [|exact Hnone].
  unfold copy_form_pssm_matrices. unfold_monad.
  rewrite (bind_eq _ _ _ _ _ Hnone). simpl.
  rewrite bind_ret_l. by rewrite (bind_eq _ _ _ _ _ Hnone).
Qed.

Lemma copy_form_pssm_matrices_idle_witness :
  copy_form_pssm_matrices Sample.quiet [("O27002", "MKVLAGGT")]
    Sample.one_matrix = (Ret tt, Sample.one_matrix)
  ∧ find_pssm_missing_proteins Sample.quiet (key_set [("O27002", "MKVLAGGT")])
      (path_to_folder Sample.quiet +:+ "/pssm_files") Sample.one_matrix
    = (Ret [], Sample.one_matrix).
Proof.
  apply (copy_form_pssm_matrices_idle Sample.quiet [("O27002", "MKVLAGGT")]
           Sample.one_matrix {[ "O27002.pssm" := "matrix" ]}).
  - reflexivity.
  - intros prot_id ->%list_elem_of_singleton.
    exists "O27002.pssm". split; [by eexists | reflexivity].
Defined.

(** ** Calls made by a computation *)

Create HintDb silent.

Lemma silent_ret {A} (a : A) : Spec.silent (ret a).
Proof. by intros w. Qed.

Lemma silent_raise {A} e : Spec.silent (@raise A e).
Proof. by intros w. Qed.

Lemma silent_bind {A B} (m : M A) (k : A → M B) :
  Spec.silent m → (∀ a, Spec.silent (k a)) → Spec.silent (bind m k).
Proof.
  intros Hm Hk w. unfold bind. specialize (Hm w).
  destruct (m w) as [[a|e] w']; simpl in *; [|done].
  by rewrite (Hk a w').
Qed.

Lemma silent_mbind {A B} (m : M A) (k : A → M B) :
  Spec.silent m → (∀ a, Spec.silent (k a)) → Spec.silent (m ≫= k).
Proof. apply silent_bind. Qed.

Lemma silent_lift {A} (r : result A) : Spec.silent (lift r).
Proof. destruct r; [apply silent_ret | apply silent_raise]. Qed.

Lemma silent_get_fs : Spec.silent Os.get_fs.
Proof. by intros w. Qed.

Lemma silent_put_fs t : Spec.silent (Os.put_fs t).
Proof. by intros w. Qed.

#[local] Hint Resolve silent_ret silent_raise silent_lift silent_get_fs
  silent_put_fs : silent.

Ltac silent_step :=
  first [ solve [auto with silent]
        | match goal with
          | |- Spec.silent (if ?b then _ else _) => destruct b
          | |- Spec.silent (_ ≫= _) => apply silent_mbind; [|intros ?]
          | |- Spec.silent (bind _ _) => apply silent_bind; [|intros ?]
          end ].

Lemma silent_read p : Spec.silent (Os.read p).
Proof.
  unfold Os.read. apply silent_bind; [auto with silent|]. intros t.
  destruct (_ ≫= _); auto with silent.
Qed.

Lemma silent_open_w p : Spec.silent (Os.open_w p).
Proof.
  unfold Os.open_w. apply silent_bind; [auto with silent|]. intros t.
  destruct (t !! p.1); auto with silent.
Qed.

Lemma silent_write p s : Spec.silent (Os.write p s).
Proof.
  unfold Os.write. apply silent_bind; [auto with silent|]. intros t.
  destruct (t !! p.1); auto with silent.
Qed.

Lemma silent_remove p : Spec.silent (Os.remove p).
Proof.
  unfold Os.remove. apply silent_bind; [auto with silent|]. intros t.
  destruct (t !! p.1); [|auto with silent].
  destruct (bool_decide _); auto with silent.
Qed.

Lemma silent_isdir d : Spec.silent (Os.isdir d).
Proof. unfold Os.isdir. apply silent_bind; auto with silent. Qed.

Lemma silent_mkdir d : Spec.silent (Os.mkdir d).
Proof.
  unfold Os.mkdir. apply silent_bind; [auto with silent|].
  intros t. destruct (Os.parent_exists t d); auto with silent.
Qed.

Lemma silent_makedirs d : Spec.silent (Os.makedirs d).
Proof. unfold Os.makedirs. apply silent_bind; auto with silent. Qed.

#[local] Hint Resolve silent_read silent_open_w silent_write silent_remove
  silent_isdir silent_mkdir silent_makedirs : silent.

Ltac silent_steps := repeat silent_step.

Lemma silent_for_in {A R} (l : list A) (body : A → M (flow R)) :
  (∀ x, Spec.silent (body x)) → Spec.silent (for_in l body).
Proof.
  intros Hbody. induction l as [|x l IH]; simpl; [auto with silent|].
  apply silent_bind; [apply Hbody|]. intros [|r]; auto with silent.
Qed.

Lemma silent_edit_POSSUM temp out fasta_dict :
  Spec.silent (edit_extracted_features_POSSUM temp out fasta_dict).
Proof.
  unfold edit_extracted_features_POSSUM. silent_steps.
  apply silent_for_in. intros [line prot_id]. silent_steps.
Qed.

Lemma silent_iFeature_line out place line :
  Spec.silent (iFeature_line out place line).
Proof.
  unfold iFeature_line. destruct (PyStr.head line); [|auto with silent].
  destruct (Ascii.eqb _ _); [auto with silent|]. cbv zeta. silent_steps.
  apply silent_for_in. intros feature. silent_steps.
Qed.

Lemma silent_edit_iFeature temp out place :
  Spec.silent (edit_extracted_features_iFeature temp out place).
Proof.
  unfold edit_extracted_features_iFeature. silent_steps.
  apply silent_for_in. apply silent_iFeature_line.
Qed.

Lemma system_run (E : env) cmd w :
  Os.system E cmd w
  = (Ret tt, World (os_system_effect E cmd (fs w)) (calls w ++ [OsSystem cmd])).
Proof. reflexivity. Qed.

(** ** Loops that return from their first iteration *)

Lemma returning_ret {R} (r : R) : Spec.returning (ret (Return r)).
Proof. by intros w. Qed.

Lemma returning_bind {A R} (m : M A) (k : A → M (flow R)) :
  (∀ a, Spec.returning (k a)) → Spec.returning (bind m k).
Proof.
  intros Hk w. unfold bind. destruct (m w) as [[a|e] w']; [apply Hk | done].
Qed.

Lemma for_in_returning {A R} (x : A) l (body : A → M (flow R)) w :
  Spec.returning (body x) →
  calls (for_in (x :: l) body w).2 = calls (body x w).2.
Proof.
  intros Hret. specialize (Hret w). simpl. unfold bind.
  destruct (body x w) as [[[|r]|e] w']; simpl in *; done.
Qed.

(** ** The extraction methods *)

Lemma bind_system_calls {B} (E : env) cmd (k : unit → M B) w :
  (∀ a, Spec.silent (k a)) →
  calls (bind (Os.system E cmd) k w).2 = calls w ++ [OsSystem cmd].
Proof. intros Hk. unfold bind. rewrite system_run. by rewrite Hk. Qed.

Ltac returning_steps :=
  repeat first [ apply returning_ret
               | apply returning_bind; intros ? ].

#[local] Hint Resolve silent_edit_POSSUM silent_edit_iFeature : silent.

(** The encoding-family method runs the tool for the first descriptor of
    its list and for no other. *)
Lemma extract_iFeature_calls (E : env) self w first rest :
  list_desc E self "all_iFeature" (iFeature_desc_list self) = first :: rest →
  calls (extract_iFeature_feature E self w).2
  = calls w
    ++ [OsSystem (iFeature_command E self
                    (path_str (temp_output_path E self first)) first)].
Proof.
  intros Hlist. unfold extract_iFeature_feature. rewrite Hlist. unfold_monad.
  rewrite for_in_returning by returning_steps.
  apply bind_system_calls. intros _. silent_steps.
Qed.

(** The PSSM-family method, once the FASTA file is read and the matrices
    are acquired, runs the tool for the first descriptor of its list and
    for no other. *)
Lemma extract_POSSUM_calls (E : env) self w fasta_dict w1 first rest :
  read_fasta_to_dict (input_folder self) (fasta_file_name self)
    (place_protein_id self) w = (Ret fasta_dict, w) →
  copy_form_pssm_matrices E fasta_dict w = (Ret tt, w1) →
  list_desc E self "all_POSSUM" (POSSUM_desc_list self) = first :: rest →
  calls (extract_POSSUM_feature E self w).2
  = calls w1
    ++ [OsSystem (possum_command E self
                    (path_str (temp_output_path E self first)) first)].
Proof.
  intros Hread Hcopy Hlist. unfold extract_POSSUM_feature. unfold_monad.
  rewrite (bind_eq _ _ _ _ _ Hread), (bind_eq _ _ _ _ _ Hcopy), Hlist.
  rewrite for_in_returning by returning_steps.
  apply bind_system_calls. intros _. silent_steps.
Qed.

Lemma list_desc_single (E : env) self alias vocabulary :
  protein_feature self ≠ alias →
  list_desc E self alias vocabulary = [protein_feature self].
Proof. intros Hne. unfold list_desc. by rewrite decide_False. Qed.

Lemma enum_cons (E : env) (X : gset string) x :
  x ∈ X → ∃ first rest, enum E X = first :: rest ∧ first ∈ X.
Proof.
  intros Hx. apply (enum_elem_of E) in Hx.
  destruct (enum E X) as [|first rest] eqn:Hl; [by apply elem_of_nil in Hx|].
  exists first, rest. split; [done|].
  apply (enum_elem_of E). rewrite Hl. apply list_elem_of_here.
Qed.

(** C4, as stated, fails: a name of neither vocabulary is handed to the
    PSSM tool in a shell command, and the only exception of the run comes
    afterwards, from the normalizer that finds no raw output. *)
Lemma unknown_descriptor_reaches_tool :
  let self := init "no_such_descriptor" 1 "input_folder" "sample" in
  let run := extract_POSSUM_feature Sample.quiet self Sample.ready in
  ("no_such_descriptor" ∉ POSSUM_desc_list self ∪ iFeature_desc_list self)
  ∧ calls run.2 = [OsSystem (Sample.possum_cmd "no_such_descriptor")]
  ∧ run.1 = Raise FileNotFoundError.
Proof.
  cbv zeta. split; [|split].
  - apply (bool_decide_unpack _). vm_compute. exact I.
  - vm_compute. reflexivity.
  - vm_compute. reflexivity.
Qed.

(** C4, amended. The extraction methods do not look the descriptor name up
    in a vocabulary: for every name other than the two aliases, known or
    not, the encoding-family method runs its tool once with that name, in
    every world; and the PSSM-family method, once the FASTA file is read
    and the acquisition stage has returned, runs its tool once with that
    name. *)
Theorem extraction_runs_any_name
    (E : env) (self : feature_extracter) (w : world) :
  protein_feature self ≠ "all_POSSUM" →
  protein_feature self ≠ "all_iFeature" →
  calls (extract_iFeature_feature E self w).2
  = calls w
    ++ [OsSystem (iFeature_command E self
                    (path_str (temp_output_path E self (protein_feature self)))
                    (protein_feature self))]
  ∧ (∀ (fasta_dict : PyDict.t) (w1 : world),
       read_fasta_to_dict (input_folder self) (fasta_file_name self)
         (place_protein_id self) w = (Ret fasta_dict, w) →
       copy_form_pssm_matrices E fasta_dict w = (Ret tt, w1) →
       calls (extract_POSSUM_feature E self w).2
       = calls w1
         ++ [OsSystem (possum_command E self
                         (path_str (temp_output_path E self
                                      (protein_feature self)))
                         (protein_feature self))]).
Proof.
  intros Hp Hi. split.
  - apply (extract_iFeature_calls E self w _ []).
    by apply list_desc_single.
  - intros fasta_dict w1 Hread Hcopy.
    apply (extract_POSSUM_calls E self w fasta_dict w1 _ [] Hread Hcopy).
    by apply list_desc_single.
Qed.

Lemma extraction_runs_any_name_witness :
  let self := init "no_such_descriptor" 1 "input_folder" "sample" in
  calls (extract_iFeature_feature Sample.quiet self Sample.ready).2
  = calls Sample.ready
    ++ [OsSystem (iFeature_command Sample.quiet self
                    (path_str (temp_output_path Sample.quiet self
                                 "no_such_descriptor"))
                    "no_such_descriptor")]
  ∧ calls (extract_POSSUM_feature Sample.quiet self Sample.ready).2
    = calls Sample.ready
      ++ [OsSystem (possum_command Sample.quiet self
                      (path_str (temp_output_path Sample.quiet self
                                   "no_such_descriptor"))
                      "no_such_descriptor")].
Proof.
  destruct (extraction_runs_any_name Sample.quiet
              (init "no_such_descriptor" 1 "input_folder" "sample")
              Sample.ready) as [Hencoding Hpssm].
  - discriminate.
  - discriminate.
  - split; [exact Hencoding|].
    apply (Hpssm
             [("O27002", "MKVLAGGT"); ("P12345", "SSWWA"); ("Q9Y6K9", "MNRHL")]
             Sample.ready).
    + vm_compute. reflexivity.
    + vm_compute. reflexivity.
Defined.

(** C1 fails on the code: in "all" mode only one descriptor is processed.
    For every environment and world the encoding-family method started with
    [all_iFeature] makes exactly one shell call, for the descriptor its
    enumeration yields first; and with a working PSSM tool, a three-protein
    FASTA file and all matrices present, the PSSM-family method started
    with [all_POSSUM] returns one path, has made one shell call and has
    left one output file, while the vocabulary has 21 concrete names. *)
Theorem all_mode_runs_one_descriptor :
  (∀ (E : env) (w : world) (place : Z) (folder name : string),
     let self := init "all_iFeature" place folder name in
     ∃ first,
       first ∈ iFeature_desc_list self ∖ {["all_iFeature"]}
       ∧ calls (extract_iFeature_feature E self w).2
         = calls w
           ++ [OsSystem (iFeature_command E self
                           (path_str (temp_output_path E self first)) first)])
  ∧ (let self := init "all_POSSUM" 1 "input_folder" "sample" in
     ∃ p w',
       extract_POSSUM_feature Sample.tool self Sample.ready = (Ret (Some p), w')
       ∧ length (calls w') = 1%nat
       ∧ size <$> (fs w' !! "feature_extraction_output/input_folder")
         = Some 1%nat
       ∧ size (POSSUM_desc_list self ∖ {["all_POSSUM"]}) = 21%nat).
Proof.
  split.
  - intros E w place folder name self.
    destruct (enum_cons E (iFeature_desc_list self ∖ {["all_iFeature"]}) "AAC")
      as (first & rest & Hl & Hin).
    { apply (bool_decide_unpack _). vm_compute. exact I. }
    exists first. split; [exact Hin|].
    apply (extract_iFeature_calls E self w first rest).
    unfold list_desc. by rewrite decide_True.
  - cbv zeta. eexists _, _. split; [vm_compute; reflexivity|].
    split; [reflexivity|]. split; vm_compute; reflexivity.
Qed.

(** * Further properties of the module *)

(** ** The FASTA parser on whole files *)

Lemma read_fasta_to_dict_lines input_dir fasta_file place w content :
  Spec.file_at w (input_dir, fasta_file +:+ ".fasta") = Some content →
  read_fasta_to_dict input_dir fasta_file place w
  = (match read_fasta_lines place (PyStr.file_lines content) with
     | Ret d => Ret d
     | Raise e => Raise e
     end, w).
Proof.
  intros Hfile. unfold read_fasta_to_dict.
  rewrite (bind_eq _ _ _ _ _ (read_run _ _ _ Hfile)).
  by destruct (read_fasta_lines _ _).
Qed.

Lemma all_sequence_lines lines :
  Forall (λ line, line ≠ "") lines →
  Forall (λ line, Spec.is_header line = false) lines →
  Forall (λ line, Spec.is_sequence_line line = true) lines.
Proof.
  intros Hne Hh. induction lines as [|line rest IH]; [constructor|].
  apply Forall_cons in Hne as [? ?]. apply Forall_cons in Hh as [? ?].
  constructor; [by apply sequence_line_iff | by apply IH].
Qed.

(** X1. A FASTA file none of whose lines starts with ['>'] (the empty file
    included) is read as a single entry: the key is the empty string and
    the value is all the lines, stripped and joined. *)
Theorem read_fasta_to_dict_headless
    (input_dir fasta_file : string) (place : Z) (w : world)
    (content : string) :
  Spec.file_at w (input_dir, fasta_file +:+ ".fasta") = Some content →
  Forall (λ line, Spec.is_header line = false) (PyStr.file_lines content) →
  read_fasta_to_dict input_dir fasta_file place w
  = (Ret [("", Spec.sequence_of (PyStr.file_lines content))], w).
Proof.
  intros Hfile Hh. rewrite (read_fasta_to_dict_lines _ _ _ _ _ Hfile).
  unfold read_fasta_lines.
  rewrite fasta_loop_sequence
    by (apply all_sequence_lines; [apply file_lines_nonempty | exact Hh]).
  reflexivity.
Qed.

Lemma read_fasta_to_dict_headless_witness :
  read_fasta_to_dict "input_folder" "sample" 1 Sample.headless
  = (Ret [("", Spec.sequence_of
                 (PyStr.file_lines (Sample.nl "MKVLA" +:+ Sample.nl "GGT")))],
     Sample.headless).
Proof.
  apply (read_fasta_to_dict_headless "input_folder" "sample" 1 Sample.headless
           (Sample.nl "MKVLA" +:+ Sample.nl "GGT")).
  - reflexivity.
  - repeat constructor.
Defined.

Lemma fasta_step_header_none place st line :
  Spec.is_header line = true →
  Spec.header_identifier place (Spec.header_of line) = None →
  fasta_step place st line = Raise IndexError.
Proof.
  intros Hh Hid. pose proof (header_field_code place line Hh) as Hc.
  rewrite Hid in Hc. destruct (is_header_inv _ Hh) as [rest ->].
  unfold fasta_step, fasta_header. simpl PyStr.head.
  replace (Ascii.eqb ">" ">") with true by reflexivity.
  by destruct (PyStr.index _ place).
Qed.

Lemma fasta_loop_short_header place lines : ∀ st,
  Forall (λ line, line ≠ "") lines →
  Spec.header_ids place lines = None →
  fasta_loop place lines st = Raise IndexError.
Proof.
  induction lines as [|line rest IH]; intros st Hne Hids; [discriminate|].
  apply Forall_cons in Hne as [Hline Hne]. simpl.
  destruct (Spec.is_header line) eqn:Hh.
  - destruct (Spec.header_identifier place (Spec.header_of line)) as [a|] eqn:Ha.
    + rewrite (fasta_step_header _ _ _ _ Hh Ha). apply IH; [done|].
      unfold Spec.header_ids in *. rewrite filter_cons_True in Hids by done.
      csimpl in Hids. rewrite Ha in Hids. csimpl in Hids.
      by destruct (mapM _ _).
    + by rewrite (fasta_step_header_none _ _ _ Hh Ha).
  - rewrite (header_ids_other _ _ _ Hh) in Hids.
    rewrite (fasta_step_sequence _ _ _ (sequence_line_iff _ Hline Hh)).
    by apply IH.
Qed.

(** X2. When some header of the file has no field at [place_protein_id]
    (too few ['|'] for the index), reading the file raises [IndexError] and
    nothing is returned, whatever the other records are. *)
Theorem read_fasta_to_dict_short_header
    (input_dir fasta_file : string) (place : Z) (w : world)
    (content : string) :
  Spec.file_at w (input_dir, fasta_file +:+ ".fasta") = Some content →
  Spec.header_ids place (PyStr.file_lines content) = None →
  read_fasta_to_dict input_dir fasta_file place w = (Raise IndexError, w).
Proof.
  intros Hfile Hids. rewrite (read_fasta_to_dict_lines _ _ _ _ _ Hfile).
  unfold read_fasta_lines.
  by rewrite (fasta_loop_short_header _ _ _ (file_lines_nonempty content) Hids).
Qed.

Lemma read_fasta_to_dict_short_header_witness :
  read_fasta_to_dict "input_folder" "sample" 1 Sample.short_header
  = (Raise IndexError, Sample.short_header).
Proof.
  apply (read_fasta_to_dict_short_header "input_folder" "sample" 1
           Sample.short_header
           (Sample.nl ">sp|O27002|x" +:+ Sample.nl "MKVLA"
            +:+ Sample.nl ">P12345" +:+ Sample.nl "GGT")).
  - reflexivity.
  - reflexivity.
Defined.

Lemma set_fresh k v d : k ∉ PyDict.keys d → PyDict.set k v d = d ++ [(k, v)].
Proof.
  unfold PyDict.keys. induction d as [|[k' v'] d IH]; csimpl; [done|].
  intros Hk. apply not_elem_of_cons in Hk as [Hne Hk].
  rewrite decide_False by done. by rewrite IH.
Qed.

Lemma set_last k v v' d :
  k ∉ PyDict.keys d → PyDict.set k v' (d ++ [(k, v)]) = d ++ [(k, v')].
Proof.
  unfold PyDict.keys. induction d as [|[k0 v0] d IH]; csimpl.
  - intros _. by rewrite decide_True.
  - intros Hk. apply not_elem_of_cons in Hk as [Hne Hk].
    rewrite decide_False by done. by rewrite IH.
Qed.

Lemma record_ids_cons place r records ids :
  Spec.record_ids place (r :: records) = Some ids →
  ∃ a ids', Spec.header_identifier place (Spec.header_of r.1) = Some a
            ∧ Spec.record_ids place records = Some ids' ∧ ids = a :: ids'.
Proof.
  unfold Spec.record_ids. csimpl.
  destruct (Spec.header_identifier _ _) as [a|]; [|discriminate].
  csimpl. destruct (mapM _ _) as [ids'|]; [|discriminate].
  csimpl. intros [= <-]. eauto.
Qed.

(** The loop over whole records, entered while record [p] is open. *)
Lemma fasta_loop_records place records : ∀ ids done p v s,
  Forall Spec.is_record records →
  Spec.record_ids place records = Some ids →
  p ≠ "" → p ∉ PyDict.keys done →
  NoDup ids → Forall (λ a, a ≠ "" ∧ a ≠ p ∧ a ∉ PyDict.keys done) ids →
  ∃ st', fasta_loop place (Spec.record_lines records)
           (FastaState (done ++ [(p, v)]) s p) = Ret st'
    ∧ PyDict.set (prot_id st') (sequence st') (fasta_dict st')
      = done ++ (p, s) :: zip ids (Spec.sequence_of <$> records.*2).
Proof.
  induction records as [|[h sl] records IH];
    intros ids done p v s Hrec Hids Hp Hpd Hnd Hall.
  - injection Hids as <-. eexists. split; [reflexivity|].
    simpl. by apply set_last.
  - apply Forall_cons in Hrec as [[Hh Hsl] Hrec]. simpl in Hh, Hsl.
    destruct (record_ids_cons _ _ _ _ Hids) as (a & ids' & Ha & Hids' & ->).
    simpl in Ha. apply NoDup_cons in Hnd as [Ha' Hnd].
    apply Forall_cons in Hall as [(Ha0 & Hap & Had) Hall].
    simpl Spec.record_lines. cbn [fasta_loop].
    rewrite (fasta_step_header _ _ _ _ Hh Ha).
    cbn [fasta_dict sequence prot_id]. cbv zeta.
    rewrite (decide_False (P := p = "")) by done.
    rewrite (set_last _ _ _ _ Hpd).
    assert (a ∉ PyDict.keys (done ++ [(p, s)])) as Hfresh.
    { unfold PyDict.keys in *. rewrite fmap_app, elem_of_app.
      intros [?|?%list_elem_of_singleton]; [done|]. simpl in *. congruence. }
    rewrite (proj2 (mem_false _ _) Hfresh), (set_fresh _ _ _ Hfresh).
    rewrite fasta_loop_app, (fasta_loop_sequence _ _ _ Hsl).
    cbn [fasta_dict sequence prot_id].
    destruct (IH ids' (done ++ [(p, s)]) a "" ("" +:+ Spec.sequence_of sl)
                Hrec Hids' Ha0 Hfresh Hnd) as (st' & -> & Hfinal).
    { rewrite Forall_forall in Hall |- *. intros b Hb.
      destruct (Hall b Hb) as (Hb0 & Hbp & Hbd).
      split; [done|]. split; [by intros ->|].
      unfold PyDict.keys in *. rewrite fmap_app, elem_of_app.
      intros [?|?%list_elem_of_singleton]; [done|]. simpl in *. congruence. }
    exists st'. split; [reflexivity|]. rewrite Hfinal.
    by rewrite <-app_assoc.
Qed.

Lemma read_fasta_lines_records place r records ids :
  Forall Spec.is_record (r :: records) →
  Spec.record_ids place (r :: records) = Some ids →
  NoDup ids → Forall (λ a, a ≠ "") ids →
  read_fasta_lines place (Spec.record_lines (r :: records))
  = Ret (zip ids (Spec.sequence_of <$> (r :: records).*2)).
Proof.
  intros Hrec Hids Hnd Hne. destruct r as [h sl].
  apply Forall_cons in Hrec as [[Hh Hsl] Hrec]. simpl in Hh, Hsl.
  destruct (record_ids_cons _ _ _ _ Hids) as (a & ids' & Ha & Hids' & ->).
  simpl in Ha. apply NoDup_cons in Hnd as [Ha' Hnd].
  apply Forall_cons in Hne as [Ha0 Hne].
  unfold read_fasta_lines. simpl Spec.record_lines. cbn [fasta_loop].
  rewrite (fasta_step_header _ _ _ _ Hh Ha). simpl.
  rewrite fasta_loop_app, (fasta_loop_sequence _ _ _ Hsl).
  cbn [fasta_dict sequence prot_id].
  destruct (fasta_loop_records place records ids' [] a ""
              ("" +:+ Spec.sequence_of sl) Hrec Hids' Ha0)
    as (st' & Hrun & Hfinal).
  - apply not_elem_of_nil.
  - exact Hnd.
  - rewrite Forall_forall in Hne |- *. intros b Hb.
    split; [by apply Hne|]. split; [by intros ->|apply not_elem_of_nil].
  - change ([] ++ [(a, "")]) with [(a, "")] in Hrun.
    rewrite Hrun, Hfinal. reflexivity.
Qed.

(** X3. A FASTA file made of whole records whose identifiers are non-empty
    and pairwise distinct is read as the mapping, in file order, from each
    record's identifier to that record's sequence lines, stripped and
    joined; the world is left as it was. *)
Theorem read_fasta_to_dict_records
    (input_dir fasta_file : string) (place : Z) (w : world)
    (content : string) (r : string * list string)
    (records : list (string * list string)) (ids : list string) :
  Spec.file_at w (input_dir, fasta_file +:+ ".fasta") = Some content →
  PyStr.file_lines content = Spec.record_lines (r :: records) →
  Forall Spec.is_record (r :: records) →
  Spec.record_ids place (r :: records) = Some ids →
  NoDup ids → Forall (λ a, a ≠ "") ids →
  read_fasta_to_dict input_dir fasta_file place w
  = (Ret (zip ids (Spec.sequence_of <$> (r :: records).*2)), w).
Proof.
  intros Hfile Hlines Hrec Hids Hnd Hne.
  rewrite (read_fasta_to_dict_lines _ _ _ _ _ Hfile), Hlines.
  by rewrite (read_fasta_lines_records _ _ _ _ Hrec Hids Hnd Hne).
Qed.

Lemma read_fasta_to_dict_records_witness :
  read_fasta_to_dict "input_folder" "sample" 1 Sample.with_fasta
  = (Ret (zip ["O27002"; "P12345"; "Q9Y6K9"]
            (Spec.sequence_of <$> Sample.records3.*2)),
     Sample.with_fasta).
Proof.
  apply (read_fasta_to_dict_records "input_folder" "sample" 1
           Sample.with_fasta Sample.fasta3
           (Sample.nl ">sp|O27002|Y1456_METTH Uncharacterized protein",
            [Sample.nl "MKVLA"; Sample.nl "GGT"])
           [(Sample.nl ">sp|P12345|AATM_RABIT Aspartate aminotransferase",
             [Sample.nl "SSWWA"]);
            (Sample.nl ">sp|Q9Y6K9|NEMO_HUMAN", [Sample.nl "MNRHL"])]).
  - reflexivity.
  - reflexivity.
  - repeat constructor.
  - reflexivity.
  - apply (bool_decide_unpack _). vm_compute. exact I.
  - repeat constructor; discriminate.
Defined.

(** ** Line terminators never reach the mapping *)

Lemma lines_of_shape s :
  Forall (λ l, Spec.lf_only_last l = true) (PyStr.lines_of s).
Proof.
  induction s as [|c s IH]; simpl; [constructor|].
  destruct (Ascii.eqb c PyStr.LF) eqn:Hc.
  - constructor; [|exact IH]. simpl. by rewrite Hc.
  - destruct (PyStr.lines_of s) as [|l ls].
    + constructor; [|constructor]. simpl. by rewrite Hc.
    + apply Forall_cons in IH as [Hl Hls].
      constructor; [|exact Hls]. simpl. by rewrite Hc.
Qed.

Lemma file_lines_shape s :
  Forall (λ l, Spec.lf_only_last l = true) (PyStr.file_lines s).
Proof. apply lines_of_shape. Qed.

Lemma lstrip_shape s :
  Spec.lf_only_last s = true → Spec.lf_only_last (PyStr.lstrip s) = true.
Proof.
  induction s as [|c s IH]; [done|]. simpl.
  destruct (Ascii.eqb c PyStr.LF) eqn:Hc.
  - intros Hs. destruct s; [|discriminate].
    destruct (PyStr.is_space c); simpl; [done | by rewrite Hc].
  - intros Hs. destruct (PyStr.is_space c); [by apply IH|].
    simpl. by rewrite Hc.
Qed.

Lemma rstrip_no_lf s : Spec.lf_only_last s = true → Spec.no_lf (PyStr.rstrip s).
Proof.
  unfold Spec.no_lf. induction s as [|c s IH]; [done|]. simpl.
  destruct (Ascii.eqb c PyStr.LF) eqn:Hc.
  - intros Hs. destruct s; [|discriminate].
    apply Ascii.eqb_eq in Hc as ->. reflexivity.
  - intros Hs. destruct (PyStr.is_space c && PyStr.is_empty (PyStr.rstrip s));
      [done|]. simpl. by rewrite Hc, IH.
Qed.

Lemma strip_no_lf line :
  Spec.lf_only_last line = true → Spec.no_lf (PyStr.strip line).
Proof. intros Hl. by apply rstrip_no_lf, lstrip_shape. Qed.

Lemma has_char_append c a b :
  Spec.has_char c (a +:+ b) = Spec.has_char c a || Spec.has_char c b.
Proof.
  induction a as [|c' a IH]; [done|].
  rewrite append_cons. simpl. by rewrite IH, orb_assoc.
Qed.

Lemma split_no_char c sep s :
  Spec.has_char c s = false →
  Forall (λ f, Spec.has_char c f = false) (PyStr.split sep s).
Proof.
  induction s as [|c' s IH]; simpl; [by repeat constructor|].
  intros [Hc Hs]%orb_false_iff. specialize (IH Hs).
  destruct (Ascii.eqb c' sep); [by constructor|].
  destruct (PyStr.split sep s) as [|f fs].
  - constructor; [|constructor]. simpl. by rewrite Hc.
  - apply Forall_cons in IH as [Hf Hfs]. constructor; [|done].
    simpl. by rewrite Hc, Hf.
Qed.

Lemma index_Forall {A} (P : A → Prop) l i x :
  Forall P l → PyStr.index l i = Some x → P x.
Proof.
  intros Hall. unfold PyStr.index.
  destruct (_ && _); [by apply Forall_lookup_1|].
  destruct (_ && _); [by apply Forall_lookup_1 | discriminate].
Qed.

Lemma tail_no_char c s :
  Spec.has_char c s = false → Spec.has_char c (PyStr.tail s) = false.
Proof. destruct s; [done|]. simpl. by intros [_ ?]%orb_false_iff. Qed.

Lemma set_Forall (P : string * string → Prop) k v d :
  Forall P d → P (k, v) → Forall P (PyDict.set k v d).
Proof.
  intros Hd Hkv. induction d as [|[k' v'] d IH]; simpl.
  - by constructor.
  - apply Forall_cons in Hd as [Hk' Hd]. destruct (decide (k' = k)) as [->|].
    + by constructor.
    + constructor; [done | by apply IH].
Qed.

Lemma fasta_step_clean place st line st' :
  Spec.lf_only_last line = true →
  Forall Spec.clean_entry (fasta_dict st) →
  Spec.no_lf (sequence st) → Spec.no_lf (prot_id st) →
  fasta_step place st line = Ret st' →
  Forall Spec.clean_entry (fasta_dict st')
  ∧ Spec.no_lf (sequence st') ∧ Spec.no_lf (prot_id st').
Proof.
  intros Hline Hd Hs Hp. unfold fasta_step, fasta_header.
  pose proof (strip_no_lf _ Hline) as Hstrip.
  destruct (PyStr.head line) as [c|]; [|discriminate].
  destruct (Ascii.eqb c ">").
  - set (d1 := if decide (prot_id st = "") then fasta_dict st
               else PyDict.set (prot_id st) (sequence st) (fasta_dict st)).
    assert (Forall Spec.clean_entry d1) as Hd1.
    { unfold d1. destruct (decide _); [done|]. by apply set_Forall. }
    destruct (PyStr.index _ place) as [f|] eqn:Hf; [|discriminate].
    assert (Spec.no_lf (if place =? 0 then PyStr.tail f else f)) as Hpid.
    { pose proof (index_Forall _ _ _ _ (split_no_char _ "|" _ Hstrip) Hf) as Hf'.
      simpl in Hf'. destruct (place =? 0); [by apply tail_no_char | done]. }
    destruct (PyDict.mem _ d1); intros [= <-]; simpl; [done|].
    split; [|done]. apply set_Forall; [done|]. by split.
  - intros [= <-]. simpl. split; [done|]. split; [|done].
    unfold Spec.no_lf in *. by rewrite has_char_append, Hs, Hstrip.
Qed.

Lemma fasta_loop_clean place lines : ∀ st st',
  Forall (λ l, Spec.lf_only_last l = true) lines →
  Forall Spec.clean_entry (fasta_dict st) →
  Spec.no_lf (sequence st) → Spec.no_lf (prot_id st) →
  fasta_loop place lines st = Ret st' →
  Forall Spec.clean_entry (fasta_dict st')
  ∧ Spec.no_lf (sequence st') ∧ Spec.no_lf (prot_id st').
Proof.
  induction lines as [|line rest IH]; intros st st' Hall Hd Hs Hp; simpl.
  - by intros [= <-].
  - apply Forall_cons in Hall as [Hline Hall].
    destruct (fasta_step place st line) as [st1|] eqn:Hstep; [|discriminate].
    destruct (fasta_step_clean _ _ _ _ Hline Hd Hs Hp Hstep) as (? & ? & ?).
    by apply IH.
Qed.

(** X4. Whatever the file holds, a mapping returned by the parser has no
    line feed in any identifier or sequence: every line is stripped before
    it is used. *)
Theorem read_fasta_to_dict_no_line_feed
    (input_dir fasta_file : string) (place : Z) (w w' : world)
    (fasta_dict : PyDict.t) :
  read_fasta_to_dict input_dir fasta_file place w = (Ret fasta_dict, w') →
  Forall Spec.clean_entry fasta_dict.
Proof.
  unfold read_fasta_to_dict, Os.read, Os.get_fs, bind. simpl.
  destruct (fs w !! input_dir ≫= _) as [content|]; [|discriminate]. simpl.
  unfold read_fasta_lines.
  destruct (fasta_loop _ _ _) as [st|] eqn:Hloop; [|discriminate].
  simpl. intros [= <- _].
  destruct (fasta_loop_clean _ _ (FastaState [] "" "") _
              (file_lines_shape content) (Forall_nil_2 _) eq_refl eq_refl
              Hloop) as (Hd & Hs & Hp).
  apply set_Forall; [done | by split].
Qed.

Lemma read_fasta_to_dict_no_line_feed_witness :
  Forall Spec.clean_entry
    (zip ["O27002"; "P12345"; "Q9Y6K9"]
       (Spec.sequence_of <$> Sample.records3.*2)).
Proof.
  apply (read_fasta_to_dict_no_line_feed "input_folder" "sample" 1
           Sample.with_fasta Sample.with_fasta).
  vm_compute. reflexivity.
Defined.

(** ** The resolver and the acquisition stage at their edges *)

Lemma before_first_no_sep sep s :
  Spec.has_char sep (Spec.before_first sep s) = false.
Proof.
  induction s as [|c s IH]; [done|]. simpl.
  destruct (Ascii.eqb c sep) eqn:Hc; [done|]. simpl. by rewrite Hc.
Qed.

(** X5. An identifier that contains a ['.'] is always reported missing,
    whatever the matrix directory holds, its own matrix file included: the
    names of the directory are cut at their first ['.'] before they are
    compared. *)
Theorem dotted_identifier_always_missing
    (E : env) (ids : gset string) (dir : string) (w : world)
    (entries : gmap string string) (id : string) :
  fs w !! dir = Some entries →
  id ∈ ids →
  Spec.has_char "." id = true →
  ∃ missing,
    find_pssm_missing_proteins E ids dir w = (Ret missing, w)
    ∧ id ∈ missing.
Proof.
  intros Hdir Hid Hdot. eexists. split; [by apply find_pssm_missing_run|].
  apply enum_elem_of, elem_of_difference. split; [exact Hid|].
  unfold Spec.present. intros (file & -> & _)%elem_of_map.
  by rewrite before_first_no_sep in Hdot.
Qed.

Lemma dotted_identifier_always_missing_witness :
  ∃ missing,
    find_pssm_missing_proteins Sample.quiet {[ "P12345.2" ]} Sample.pssm_dir
      Sample.dotted_matrix = (Ret missing, Sample.dotted_matrix)
    ∧ "P12345.2" ∈ missing.
Proof.
  apply (dotted_identifier_always_missing Sample.quiet {[ "P12345.2" ]}
           Sample.pssm_dir Sample.dotted_matrix
           {[ "P12345.2.pssm" := "matrix" ]} "P12345.2").
  - reflexivity.
  - apply elem_of_singleton. reflexivity.
  - reflexivity.
Defined.




(** ** Local regeneration *)

(** A loop whose iterations all fall through, each adding its calls. *)
Lemma for_in_calls {A} (g : A → list call) (body : A → M (flow unit))
    (items : list A) :
  (∀ x w, ∃ w', body x w = (Ret Next, w') ∧ calls w' = calls w ++ g x) →
  ∀ w, ∃ w', for_in items body w = (Ret None, w')
             ∧ calls w' = calls w ++ mjoin (g <$> items).
Proof.
  intros Hbody. induction items as [|x items IH]; intros w.
  - exists w. split; [done|]. by rewrite app_nil_r.
  - destruct (Hbody x w) as (w1 & Hx & Hc1).
    destruct (IH w1) as (w2 & Hrest & Hc2).
    exists w2. cbn [for_in]. rewrite (bind_eq _ _ _ _ _ Hx).
    split; [exact Hrest|]. rewrite Hc2, Hc1. csimpl. by rewrite app_assoc.
Qed.

Lemma mjoin_singletons {A B} (f : A → B) (l : list A) :
  mjoin ((λ x, [f x]) <$> l) = f <$> l.
Proof. induction l as [|x l IH]; csimpl; [done | by rewrite IH]. Qed.

Lemma mjoin_nils {A B} (l : list A) :
  mjoin ((λ _, @nil B) <$> l) = [].
Proof. induction l as [|x l IH]; csimpl; [done | by rewrite IH]. Qed.

(** The run of [form_missing_pssm_files] on an existing scratch
    directory. *)
Lemma form_missing_pssm_files_run
    (E : env) (pssm_dir : string) (w : world)
    (entries : gmap string string) :
  fs w !! path_single_fastas E = Some entries →
  ∃ w',
    form_missing_pssm_files E pssm_dir w = (Ret tt, w')
    ∧ fs w' !! path_single_fastas E = None
    ∧ calls w'
      = calls w ++ Spec.psiblast_calls E pssm_dir (enum E (dom entries))
    ∧ (Spec.psiblast_exe E = None → calls w' = calls w).
Proof.
  intros Hdir. unfold form_missing_pssm_files. unfold_monad.
  assert (Os.listdir E (path_single_fastas E) w
          = (Ret (enum E (dom entries)), w)) as Hlist.
  { unfold Os.listdir, Os.get_fs, bind. simpl. by rewrite Hdir. }
  rewrite (bind_eq _ _ _ _ _ Hlist).
  edestruct (for_in_calls
               (λ filename,
                  match Spec.psiblast_exe E with
                  | Some exe => [Spec.psiblast_call E exe pssm_dir filename]
                  | None => []
                  end)) as (w1 & Hloop & Hcalls); cycle 1.
  { rewrite (bind_eq _ _ _ _ _ Hloop).
    eexists. split; [reflexivity|]. simpl.
    split; [apply lookup_delete_eq|].
    assert (calls w1
            = calls w ++ Spec.psiblast_calls E pssm_dir (enum E (dom entries)))
      as Hc.
    { rewrite Hcalls. unfold Spec.psiblast_calls.
      destruct (Spec.psiblast_exe E);
        [by rewrite mjoin_singletons | by rewrite mjoin_nils]. }
    split; [exact Hc|]. intros Hnone. rewrite Hc.
    unfold Spec.psiblast_calls. by rewrite Hnone, app_nil_r. }
  intros filename w0. cbv beta. rewrite before_dot_spec. simpl lift.
  rewrite bind_ret_l. unfold Spec.psiblast_exe, Spec.psiblast_call.
  destruct (contains "Linux" (platform_platform E)).
  { eexists. rewrite (bind_eq _ _ _ _ _ (system_run _ _ _)).
    split; reflexivity. }
  destruct (contains "Darwin" (platform_platform E)).
  { eexists. rewrite (bind_eq _ _ _ _ _ (system_run _ _ _)).
    split; reflexivity. }
  exists w0. rewrite bind_ret_l. split; [reflexivity|]. by rewrite app_nil_r.
Qed.

(** X7. On an existing scratch directory, local regeneration starts one
    search per file found there, with [psiblast] when the platform string
    contains ["Linux"], else with [psiblastMAC] when it contains
    ["Darwin"], and then removes the scratch directory; when the platform
    string contains neither it starts nothing at all and still removes the
    directory, without any error. *)
Theorem form_missing_pssm_files_calls
    (E : env) (pssm_dir : string) (w : world)
    (entries : gmap string string) :
  fs w !! path_single_fastas E = Some entries →
  ∃ w',
    form_missing_pssm_files E pssm_dir w = (Ret tt, w')
    ∧ fs w' !! path_single_fastas E = None
    ∧ calls w'
      = calls w ++ Spec.psiblast_calls E pssm_dir (enum E (dom entries))
    ∧ (Spec.psiblast_exe E = None → calls w' = calls w).
Proof. apply form_missing_pssm_files_run. Qed.

Lemma form_missing_pssm_files_calls_witness :
  (∃ w',
     form_missing_pssm_files Sample.quiet Sample.pssm_dir Sample.scratch
     = (Ret tt, w')
     ∧ fs w' !! path_single_fastas Sample.quiet = None
     ∧ calls w'
       = [OsSystem
            ("/opt/profab/ncbi-blast/psiblast"
             +:+ " -db /opt/profab/ncbi-blast/uniref50_db/uniref50.blastdb"
             +:+ " -evalue 0.001"
             +:+ " -query /opt/profab/temp_folder/single_fastas/O27002.fasta"
             +:+ " -out_ascii_pssm /opt/profab/pssm_files/O27002.pssm"
             +:+ "  -out /opt/profab/ncbi-blast/outfile"
             +:+ " -num_iterations 3 -comp_based_stats 1");
          OsSystem
            ("/opt/profab/ncbi-blast/psiblast"
             +:+ " -db /opt/profab/ncbi-blast/uniref50_db/uniref50.blastdb"
             +:+ " -evalue 0.001"
             +:+ " -query /opt/profab/temp_folder/single_fastas/P12345.fasta"
             +:+ " -out_ascii_pssm /opt/profab/pssm_files/P12345.pssm"
             +:+ "  -out /opt/profab/ncbi-blast/outfile"
             +:+ " -num_iterations 3 -comp_based_stats 1")])
  ∧ (∃ w',
       form_missing_pssm_files Sample.macos Sample.pssm_dir Sample.scratch
       = (Ret tt, w')
       ∧ fs w' !! path_single_fastas Sample.macos = None
       ∧ calls w' = []).
Proof.
  split.
  - destruct (form_missing_pssm_files_calls Sample.quiet Sample.pssm_dir
                Sample.scratch _ eq_refl) as (w' & Hrun & Hgone & Hcalls & _).
    exists w'. split; [exact Hrun|]. split; [exact Hgone|].
    rewrite Hcalls. vm_compute. reflexivity.
  - destruct (form_missing_pssm_files_calls Sample.macos Sample.pssm_dir
                Sample.scratch _ eq_refl) as (w' & Hrun & Hgone & _ & Hnone).
    exists w'. split; [exact Hrun|]. split; [exact Hgone|].
    apply Hnone. reflexivity.
Defined.

(** ** Remote fetch *)
















Lemma for_in_app {A R} (body : A → M (flow R)) l1 l2 w :
  for_in (l1 ++ l2) body w
  = match for_in l1 body w with
    | (Ret None, w1) => for_in l2 body w1
    | r => r
    end.
Proof.
  revert w. induction l1 as [|x l1 IH]; intros w; [done|].
  simpl app. cbn [for_in]. unfold bind.
  destruct (body x w) as [[[|r]|e] w1]; [apply IH|done..].
Qed.




(** ** One descriptor, end to end *)




Lemma mkdir_no_parent {B} d (k : unit → M B) w :
  fs w !! d = None → Os.parent_exists (fs w) d = false →
  bind (Os.isdir d)
       (λ there, bind (if there then ret tt else Os.mkdir d) k) w
  = (Raise FileNotFoundError, w).
Proof.
  intros Hd Hp.
  unfold Os.isdir, Os.mkdir, Os.get_fs, Os.put_fs, bind, ret, raise.
  simpl. rewrite Hd, bool_decide_eq_false_2 by (by intros [? ?]).
  by rewrite Hp.
Qed.




Lemma with_dir_keeps t d q : is_Some (t !! q) → is_Some (Os.with_dir t d !! q).
Proof.
  unfold Os.with_dir. destruct (bool_decide _) eqn:Hd; [done|].
  intros Hq. destruct (decide (d = q)) as [->|Hne].
  - rewrite lookup_insert_eq. by eexists.
  - by rewrite lookup_insert_ne.
Qed.

Lemma with_dirs_keep ds t q :
  is_Some (t !! q) → is_Some (foldl Os.with_dir t ds !! q).
Proof.
  revert t. induction ds as [|d ds IH]; intros t Hq; [done|].
  simpl. by apply IH, with_dir_keeps.
Qed.













(** ** The normalizers at their edges *)

(** X13. Whatever the raw output holds, the PSSM-family normalizer returns
    normally: it writes as many records as the shorter of the raw lines and
    the identifiers (raw lines beyond the last protein are dropped), makes
    no call, and changes no file but the final file and the raw file. *)
Theorem edit_POSSUM_frame
    (temp out : path) (fasta_dict : PyDict.t) (w : world) (raw : string) :
  temp ≠ out →
  Spec.file_at w temp = Some raw →
  is_Some (fs w !! out.1) →
  ∃ w' records,
    edit_extracted_features_POSSUM temp out fasta_dict w = (Ret tt, w')
    ∧ Spec.file_at w' out = Some (PyStr.concat records)
    ∧ length records
      = (length (PyStr.file_lines raw) `min` length fasta_dict)%nat
    ∧ calls w' = calls w
    ∧ (∀ q, q ≠ temp → q ≠ out → Spec.file_at w' q = Spec.file_at w q).
Proof.
  intros Hne Hraw Hout.
  eexists _, (Spec.possum_records (PyStr.file_lines raw) fasta_dict).
  split; [by apply edit_POSSUM_run|].
  split; [rewrite file_at_drop_ne by done; apply file_at_put_eq|].
  split; [apply possum_records_length|].
  split; [reflexivity|].
  intros q Hq1 Hq2.
  rewrite file_at_drop_ne, file_at_put_ne by done. by rewrite with_fs_id.
Qed.

Lemma edit_POSSUM_frame_witness :
  ∃ w' records,
    edit_extracted_features_POSSUM Sample.temp_file Sample.output_file
      [("O27002", "MKVLAGGT")]
      (Sample.after_tool (Sample.nl "0.1,0.2" +:+ Sample.nl "0.3,0.4"))
    = (Ret tt, w')
    ∧ Spec.file_at w' Sample.output_file = Some (PyStr.concat records)
    ∧ length records
      = (length (PyStr.file_lines (Sample.nl "0.1,0.2" +:+ Sample.nl "0.3,0.4"))
         `min` length [("O27002", "MKVLAGGT")])%nat
    ∧ calls w'
      = calls (Sample.after_tool (Sample.nl "0.1,0.2" +:+ Sample.nl "0.3,0.4"))
    ∧ (∀ q, q ≠ Sample.temp_file → q ≠ Sample.output_file →
            Spec.file_at w' q
            = Spec.file_at
                (Sample.after_tool (Sample.nl "0.1,0.2" +:+ Sample.nl "0.3,0.4"))
                q).
Proof.
  apply (edit_POSSUM_frame Sample.temp_file Sample.output_file
           [("O27002", "MKVLAGGT")]
           (Sample.after_tool (Sample.nl "0.1,0.2" +:+ Sample.nl "0.3,0.4"))
           (Sample.nl "0.1,0.2" +:+ Sample.nl "0.3,0.4")).
  - discriminate.
  - reflexivity.
  - exists ∅. reflexivity.
Defined.

Lemma iFeature_line_raise (out : path) (place : Z) line w :
  line ≠ "" →
  Spec.is_comment line = false →
  Spec.iFeature_record place line = None →
  iFeature_line out place line w = (Raise IndexError, w).
Proof.
  intros Hne Hc Hrec. unfold iFeature_line.
  destruct line as [|c0 rest0] eqn:Hline; [done|]. rewrite <-Hline in *.
  assert (PyStr.head line = Some c0) as -> by by rewrite Hline.
  rewrite (is_comment_head line c0), Hc by by rewrite Hline.
  unfold Spec.iFeature_record, Spec.pipe_field in Hrec.
  destruct (split_first PyStr.TAB (PyStr.strip line)) as (fs' & Hsplit).
  cbv zeta. rewrite Hsplit, index_0_cons. simpl lift. rewrite bind_ret_l.
  by destruct (PyStr.index _ place).
Qed.

(** X14. When a data line of the raw output has no field at
    [place_protein_id], the encoding-family normalizer raises [IndexError]
    at that line: the final file is left with the records of the lines
    before it, and the raw file is not removed. *)
Theorem edit_iFeature_short_field
    (temp out : path) (place : Z) (w : world) (raw : string)
    (good : list string) (bad : string) (rest records : list string) :
  temp ≠ out →
  Spec.file_at w temp = Some raw →
  is_Some (fs w !! out.1) →
  PyStr.file_lines raw = good ++ bad :: rest →
  mapM (Spec.iFeature_record place) (Spec.data_lines good) = Some records →
  Spec.is_comment bad = false →
  Spec.iFeature_record place bad = None →
  ∃ w',
    edit_extracted_features_iFeature temp out place w = (Raise IndexError, w')
    ∧ Spec.file_at w' out = Some (PyStr.concat records)
    ∧ Spec.file_at w' temp = Some raw.
Proof.
  intros Hne Hraw Hout Hlines Hrec Hc Hbad.
  pose proof (file_lines_nonempty raw) as Hnonempty.
  rewrite Hlines in Hnonempty. apply Forall_app in Hnonempty as [Hgood Hrest].
  apply Forall_cons in Hrest as [Hbad_ne _].
  unfold edit_extracted_features_iFeature. unfold_monad.
  rewrite (bind_eq _ _ _ _ _ (read_run _ _ _ Hraw)).
  rewrite (bind_eq _ _ _ _ _ (open_w_run _ _ Hout)).
  set (w1 := Spec.with_fs w (Spec.put_file out "" (fs w))).
  assert (Spec.file_at w1 temp = Some raw) as Hraw1.
  { unfold w1. rewrite file_at_put_ne, with_fs_id by done. exact Hraw. }
  rewrite (bind_eq _ _ _ _ _ (read_run _ _ _ Hraw1)). rewrite Hlines.
  erewrite bind_raise; cycle 1.
  { rewrite for_in_app.
    erewrite (for_in_writes out (Spec.iFeature_written place)) with (c := "");
      cycle 1.
    - intros line w' c Hin Hf. apply iFeature_line_run; [| |done].
      + rewrite Forall_forall in Hgood. by apply Hgood.
      + intros Hcl. by eapply data_line_record.
    - apply file_at_put_eq.
    - cbn [for_in]. apply bind_raise. by apply iFeature_line_raise. }
  eexists. split; [reflexivity|].
  unfold w1, Spec.with_fs. simpl. rewrite put_file_put_file.
  rewrite (written_concat _ _ _ Hrec).
  split; [apply (file_at_put_eq w)|].
  change (Spec.file_at (Spec.with_fs w (Spec.put_file out (PyStr.concat records)
                                          (fs w))) temp = Some raw).
  rewrite file_at_put_ne, with_fs_id by done. exact Hraw.
Qed.

Lemma edit_iFeature_short_field_witness :
  ∃ w',
    edit_extracted_features_iFeature Sample.temp_file Sample.output_file 1
      (Sample.after_tool Sample.raw_broken) = (Raise IndexError, w')
    ∧ Spec.file_at w' Sample.output_file
      = Some (PyStr.concat
                [Sample.nl ("O27002" +:+ PyStr.chr PyStr.TAB +:+ "0.1")])
    ∧ Spec.file_at w' Sample.temp_file = Some Sample.raw_broken.
Proof.
  apply (edit_iFeature_short_field Sample.temp_file Sample.output_file 1
           (Sample.after_tool Sample.raw_broken) Sample.raw_broken
           [Sample.nl ("sp|O27002|Y1456_METTH" +:+ PyStr.chr PyStr.TAB +:+ "0.1")]
           (Sample.nl ("P12345" +:+ PyStr.chr PyStr.TAB +:+ "0.3"))
           [Sample.nl ("sp|Q9Y6K9|NEMO_HUMAN" +:+ PyStr.chr PyStr.TAB +:+ "0.5")]).
  - discriminate.
  - reflexivity.
  - exists ∅. reflexivity.
  - reflexivity.
  - reflexivity.
  - reflexivity.
  - reflexivity.
Defined.

(** ** Single-sequence files *)

Lemma lines_of_line body rest :
  Spec.no_lf body →
  PyStr.lines_of (body +:+ String PyStr.LF rest)
  = (body +:+ PyStr.chr PyStr.LF) :: PyStr.lines_of rest.
Proof.
  unfold Spec.no_lf. induction body as [|c body IH]; [done|].
  simpl. intros [Hc Hb]%orb_false_iff. rewrite !append_cons. simpl.
  by rewrite Hc, (IH Hb).
Qed.

Lemma universal_newlines_app body rest :
  Spec.no_cr body →
  PyStr.universal_newlines (body +:+ rest)
  = body +:+ PyStr.universal_newlines rest.
Proof.
  unfold Spec.no_cr. induction body as [|c body IH]; [done|].
  simpl. intros [Hc Hb]%orb_false_iff. rewrite !append_cons. simpl.
  by rewrite Hc, (IH Hb).
Qed.

Lemma file_lines_line body rest :
  Spec.no_lf body → Spec.no_cr body →
  PyStr.file_lines (body +:+ String PyStr.LF rest)
  = (body +:+ PyStr.chr PyStr.LF) :: PyStr.file_lines rest.
Proof.
  intros Hlf Hcr. unfold PyStr.file_lines.
  rewrite (universal_newlines_app _ _ Hcr).
  change (PyStr.universal_newlines (String PyStr.LF rest))
    with (String PyStr.LF (PyStr.universal_newlines rest)).
  by apply lines_of_line.
Qed.

(** The directory above the scratch directory. *)
Lemma upto_last_slash_single p :
  Os.upto_last_slash (p +:+ "/temp_folder/single_fastas")
  = Some (p +:+ "/temp_folder/").
Proof.
  induction p as [|c p IH]; [reflexivity|].
  rewrite !append_cons. simpl. by rewrite IH.
Qed.

Lemma rstrip_slashes_temp_folder p tail :
  Os.rstrip_slashes tail = "" →
  Os.rstrip_slashes (p +:+ "/temp_folder" +:+ tail) = p +:+ "/temp_folder".
Proof.
  intros Htail. induction p as [|c p IH].
  - change ("" +:+ "/temp_folder" +:+ tail) with ("/temp_folder" +:+ tail).
    rewrite !append_cons. change ("" +:+ tail) with tail.
    cbn [Os.rstrip_slashes]. rewrite Htail. reflexivity.
  - rewrite (append_cons c p). cbn [Os.rstrip_slashes]. rewrite IH.
    destruct p; rewrite ?append_cons; simpl; by rewrite andb_false_r.
Qed.

Lemma dirname_single (E : env) :
  Os.dirname (path_single_fastas E) = Spec.temp_folder E.
Proof.
  unfold Os.dirname, path_single_fastas, Spec.temp_folder.
  rewrite upto_last_slash_single.
  change (path_to_folder E +:+ "/temp_folder/")
    with (path_to_folder E +:+ "/temp_folder" +:+ "/").
  rewrite (rstrip_slashes_temp_folder (path_to_folder E) "/" eq_refl).
  by destruct (path_to_folder E).
Qed.

Lemma parent_exists_single (E : env) t :
  Os.parent_exists t (path_single_fastas E)
  = bool_decide (is_Some (t !! Spec.temp_folder E)).
Proof.
  unfold Os.parent_exists. rewrite dirname_single. unfold Spec.temp_folder.
  pose proof (rstrip_slashes_temp_folder (path_to_folder E) "" eq_refl) as Hr.
  change ("/temp_folder" +:+ "") with "/temp_folder" in Hr. rewrite Hr.
  by destruct (path_to_folder E).
Qed.

Lemma split_no_sep sep s :
  Spec.has_char sep s = false → PyStr.split sep s = [s].
Proof.
  induction s as [|c s IH]; [done|]. simpl.
  intros [-> Hs]%orb_false_iff. by rewrite (IH Hs).
Qed.










(** ** Sequences the parser loses *)

Lemma leading_lines_dropped place lead h tail :
  Forall (λ line, Spec.is_sequence_line line = true) lead →
  Spec.is_header h = true →
  read_fasta_lines place (lead ++ h :: tail)
  = read_fasta_lines place (h :: tail).
Proof.
  intros Hlead Hh. unfold read_fasta_lines.
  rewrite fasta_loop_app, (fasta_loop_sequence _ _ _ Hlead).
  cbn [fasta_loop fasta_dict sequence prot_id].
  destruct (Spec.header_identifier place (Spec.header_of h)) as [a|] eqn:Ha.
  - by rewrite !(fasta_step_header _ _ _ _ Hh Ha).
  - by rewrite !(fasta_step_header_none _ _ _ Hh Ha).
Qed.

(** X16. Sequence lines that come before the first header are dropped
    without any error: a file made of such lines followed by whole records
    with non-empty, pairwise distinct identifiers is read exactly as the
    records alone, each identifier mapped to its own record's sequence. *)
Theorem read_fasta_to_dict_leading_lines
    (input_dir fasta_file : string) (place : Z) (w : world)
    (content : string) (lead : list string) (r : string * list string)
    (records : list (string * list string)) (ids : list string) :
  Spec.file_at w (input_dir, fasta_file +:+ ".fasta") = Some content →
  PyStr.file_lines content = lead ++ Spec.record_lines (r :: records) →
  Forall (λ line, Spec.is_sequence_line line = true) lead →
  Forall Spec.is_record (r :: records) →
  Spec.record_ids place (r :: records) = Some ids →
  NoDup ids → Forall (λ a, a ≠ "") ids →
  read_fasta_to_dict input_dir fasta_file place w
  = (Ret (zip ids (Spec.sequence_of <$> (r :: records).*2)), w).
Proof.
  intros Hfile Hlines Hlead Hrec Hids Hnd Hne.
  rewrite (read_fasta_to_dict_lines _ _ _ _ _ Hfile), Hlines.
  pose proof (Forall_inv Hrec) as [Hh _].
  change (Spec.record_lines (r :: records))
    with (r.1 :: r.2 ++ Spec.record_lines records).
  rewrite (leading_lines_dropped _ _ _ _ Hlead Hh).
  change (r.1 :: r.2 ++ Spec.record_lines records)
    with (Spec.record_lines (r :: records)).
  by rewrite (read_fasta_lines_records _ _ _ _ Hrec Hids Hnd Hne).
Qed.

Lemma read_fasta_to_dict_leading_lines_witness :
  read_fasta_to_dict "input_folder" "sample" 1 Sample.with_stray_lines
  = (Ret (zip ["O27002"; "P12345"; "Q9Y6K9"]
            (Spec.sequence_of <$> Sample.records3.*2)),
     Sample.with_stray_lines).
Proof.
  apply (read_fasta_to_dict_leading_lines "input_folder" "sample" 1
           Sample.with_stray_lines
           (Sample.nl "GGGG" +:+ Sample.nl "TTTT" +:+ Sample.fasta3)
           [Sample.nl "GGGG"; Sample.nl "TTTT"]
           (Sample.nl ">sp|O27002|Y1456_METTH Uncharacterized protein",
            [Sample.nl "MKVLA"; Sample.nl "GGT"])
           [(Sample.nl ">sp|P12345|AATM_RABIT Aspartate aminotransferase",
             [Sample.nl "SSWWA"]);
            (Sample.nl ">sp|Q9Y6K9|NEMO_HUMAN", [Sample.nl "MNRHL"])]).
  - reflexivity.
  - reflexivity.
  - repeat constructor.
  - repeat constructor.
  - reflexivity.
  - apply (bool_decide_unpack _). vm_compute. exact I.
  - repeat constructor; discriminate.
Defined.

(** X17. The empty string is the parser's mark for "no record yet": a
    record whose identifier is empty and that is followed by another record
    loses its sequence.  A file made of such a record followed by whole
    records with non-empty, pairwise distinct identifiers is read with the
    empty identifier mapped to the empty string, whatever its sequence
    lines were. *)
Theorem read_fasta_to_dict_empty_identifier
    (input_dir fasta_file : string) (place : Z) (w : world)
    (content : string) (h0 : string) (s0 : list string)
    (r : string * list string) (records : list (string * list string))
    (ids : list string) :
  Spec.file_at w (input_dir, fasta_file +:+ ".fasta") = Some content →
  PyStr.file_lines content = h0 :: s0 ++ Spec.record_lines (r :: records) →
  Spec.is_record (h0, s0) →
  Spec.header_identifier place (Spec.header_of h0) = Some "" →
  Forall Spec.is_record (r :: records) →
  Spec.record_ids place (r :: records) = Some ids →
  NoDup ids → Forall (λ a, a ≠ "") ids →
  read_fasta_to_dict input_dir fasta_file place w
  = (Ret (("", "") :: zip ids (Spec.sequence_of <$> (r :: records).*2)), w).
Proof.
  intros Hfile Hlines [Hh0 Hs0] Hid0 Hrec Hids Hnd Hne. simpl in Hh0, Hs0.
  rewrite (read_fasta_to_dict_lines _ _ _ _ _ Hfile), Hlines.
  destruct r as [h sl].
  apply Forall_cons in Hrec as [[Hh Hsl] Hrec]. simpl in Hh, Hsl.
  destruct (record_ids_cons _ _ _ _ Hids) as (a & ids' & Ha & Hids' & ->).
  simpl in Ha. apply NoDup_cons in Hnd as [Ha' Hnd].
  apply Forall_cons in Hne as [Ha0 Hne].
  unfold read_fasta_lines. cbn [fasta_loop].
  rewrite (fasta_step_header _ _ _ _ Hh0 Hid0). simpl.
  rewrite fasta_loop_app, (fasta_loop_sequence _ _ _ Hs0).
  cbn [fasta_dict sequence prot_id]. simpl Spec.record_lines. cbn [fasta_loop].
  rewrite (fasta_step_header _ _ _ _ Hh Ha). simpl.
  assert (PyDict.mem a [("", "")] = false) as ->.
  { apply mem_false. intros Hin%list_elem_of_singleton. done. }
  rewrite decide_False by done.
  rewrite fasta_loop_app, (fasta_loop_sequence _ _ _ Hsl).
  cbn [fasta_dict sequence prot_id].
  destruct (fasta_loop_records place records ids' [("", "")] a ""
              ("" +:+ Spec.sequence_of sl) Hrec Hids' Ha0)
    as (st' & Hrun & Hfinal).
  - intros Hin%list_elem_of_singleton. done.
  - exact Hnd.
  - rewrite Forall_forall in Hne |- *. intros b Hb.
    split; [by apply Hne|]. split; [by intros ->|].
    intros Hin%list_elem_of_singleton. by apply (Hne b Hb).
  - change ([("", "")] ++ [(a, "")]) with [("", ""); (a, "")] in Hrun.
    rewrite Hrun, Hfinal. reflexivity.
Qed.

Lemma read_fasta_to_dict_empty_identifier_witness :
  read_fasta_to_dict "input_folder" "sample" 1 Sample.with_empty_id
  = (Ret (("", "") :: zip ["O27002"; "P12345"; "Q9Y6K9"]
                        (Spec.sequence_of <$> Sample.records3.*2)),
     Sample.with_empty_id).
Proof.
  apply (read_fasta_to_dict_empty_identifier "input_folder" "sample" 1
           Sample.with_empty_id
           (Sample.nl ">sp||unnamed" +:+ Sample.nl "GGGG" +:+ Sample.fasta3)
           (Sample.nl ">sp||unnamed") [Sample.nl "GGGG"]
           (Sample.nl ">sp|O27002|Y1456_METTH Uncharacterized protein",
            [Sample.nl "MKVLA"; Sample.nl "GGT"])
           [(Sample.nl ">sp|P12345|AATM_RABIT Aspartate aminotransferase",
             [Sample.nl "SSWWA"]);
            (Sample.nl ">sp|Q9Y6K9|NEMO_HUMAN", [Sample.nl "MNRHL"])]).
  - reflexivity.
  - reflexivity.
  - repeat constructor.
  - reflexivity.
  - repeat constructor.
  - reflexivity.
  - apply (bool_decide_unpack _). vm_compute. exact I.
  - repeat constructor; discriminate.
Defined.

(** ** The acquisition stage as a whole *)












(** ** Normalizing twice *)

Lemma before_first_prefix sep prot_id rest :
  Spec.has_char sep prot_id = false →
  rest = "" ∨ (∃ rest', rest = String sep rest') →
  Spec.before_first sep (prot_id +:+ rest) = prot_id.
Proof.
  intros Hid Hrest. induction prot_id as [|c prot_id IH].
  - destruct Hrest as [->|[rest' ->]]; [done|].
    simpl. by rewrite Ascii.eqb_refl.
  - simpl in Hid. apply orb_false_iff in Hid as [Hc Hid].
    rewrite append_cons. simpl. by rewrite Hc, (IH Hid).
Qed.

Lemma normalized_record_fixed r :
  Spec.normalized_record r → Spec.iFeature_record 0 r = Some r.
Proof.
  intros (prot_id & rest & -> & Htab & Hpipe & Hrest & Hlf & _ & Htrim & _).
  unfold Spec.iFeature_record, Spec.pipe_field.
  rewrite (strip_terminated _ Htrim).
  rewrite (before_first_prefix _ _ _ Htab Hrest).
  rewrite (split_no_sep _ _ Hpipe), index_0_cons, skip_append.
  by rewrite append_assoc.
Qed.

Lemma file_lines_concat records :
  Forall Spec.normalized_record records →
  PyStr.file_lines (PyStr.concat records) = records.
Proof.
  induction 1 as [|r records Hr _ IH]; [done|].
  destruct Hr as (prot_id & rest & -> & _ & _ & _ & Hlf & Hcr & _).
  simpl PyStr.concat. rewrite append_assoc.
  change (PyStr.chr PyStr.LF +:+ PyStr.concat records)
    with (String PyStr.LF (PyStr.concat records)).
  by rewrite (file_lines_line _ _ Hlf Hcr), IH.
Qed.

Lemma normalized_data_lines records :
  Forall Spec.normalized_record records → Spec.data_lines records = records.
Proof.
  unfold Spec.data_lines. induction 1 as [|r records Hr _ IH]; [done|].
  destruct Hr as (? & ? & ? & ? & ? & ? & ? & ? & ? & Hc).
  rewrite filter_cons_True by done. by rewrite IH.
Qed.

(** X20. Run at index 0 on a file of records in normal form, the
    encoding-family normalizer writes the same records again.  A record
    is in normal form when it is an identifier without tab or ['|'],
    followed by nothing or by a tab and further characters, followed by a
    line feed, where identifier and values together hold no line feed and
    no carriage return and have no blank at either end, and the record
    does not start with ['#']. *)
Theorem edit_iFeature_idempotent
    (temp out : path) (w : world) (records : list string) :
  temp ≠ out →
  Spec.file_at w temp = Some (PyStr.concat records) →
  is_Some (fs w !! out.1) →
  Forall Spec.normalized_record records →
  ∃ w',
    edit_extracted_features_iFeature temp out 0 w = (Ret tt, w')
    ∧ Spec.file_at w' out = Some (PyStr.concat records).
Proof.
  intros Hne Hraw Hout Hall. eexists. split.
  - apply (edit_iFeature_run _ _ _ _ (PyStr.concat records) records Hne Hraw Hout).
    rewrite (file_lines_concat _ Hall), (normalized_data_lines _ Hall).
    apply mapM_Some, Forall2_same_length_lookup. split; [done|].
    intros i x y Hx Hy. rewrite Hx in Hy. injection Hy as <-.
    apply normalized_record_fixed.
    rewrite Forall_forall in Hall. apply Hall. by eapply list_elem_of_lookup_2.
  - rewrite file_at_drop_ne by done. apply file_at_put_eq.
Qed.

Lemma edit_iFeature_idempotent_witness :
  ∃ w',
    edit_extracted_features_iFeature Sample.temp_file Sample.output_file 0
      (Sample.after_tool (PyStr.concat Sample.normalized)) = (Ret tt, w')
    ∧ Spec.file_at w' Sample.output_file
      = Some (PyStr.concat Sample.normalized).
Proof.
  apply (edit_iFeature_idempotent Sample.temp_file Sample.output_file
           (Sample.after_tool (PyStr.concat Sample.normalized))
           Sample.normalized).
  - discriminate.
  - reflexivity.
  - exists ∅. reflexivity.
  - constructor; [|constructor; [|constructor]].
    + exists "O27002",
        (PyStr.chr PyStr.TAB +:+ "0.1" +:+ PyStr.chr PyStr.TAB +:+ "0.2").
      repeat split; try reflexivity. right. by eexists.
    + exists "P12345",
        (PyStr.chr PyStr.TAB +:+ "0.3" +:+ PyStr.chr PyStr.TAB +:+ "0.4").
      repeat split; try reflexivity. right. by eexists.
Defined.

(** ** A missing key *)



(** ** A missing folder for temporary files *)

(** X22. [os.mkdir] makes one directory only: when neither the scratch
    directory nor the [temp_folder] above it exists,
    [form_single_fasta_files] raises [FileNotFoundError] before it writes
    any file, whatever the identifiers are, and leaves the world as it
    was. *)
Theorem form_single_fasta_files_no_temp_folder
    (E : env) (ids : list string) (fasta_dict : PyDict.t) (w : world) :
  fs w !! path_single_fastas E = None →
  fs w !! Spec.temp_folder E = None →
  form_single_fasta_files E ids fasta_dict w = (Raise FileNotFoundError, w).
Proof.
  intros Hscratch Htemp. unfold form_single_fasta_files. unfold_monad.
  apply mkdir_no_parent; [exact Hscratch|].
  rewrite parent_exists_single, Htemp.
  apply bool_decide_eq_false_2. by intros [? ?].
Qed.

Lemma form_single_fasta_files_no_temp_folder_witness :
  form_single_fasta_files Sample.quiet ["O27002"; "P12345"]
    Sample.two_proteins Sample.no_matrix
  = (Raise FileNotFoundError, Sample.no_matrix).
Proof.
  apply (form_single_fasta_files_no_temp_folder Sample.quiet
           ["O27002"; "P12345"] Sample.two_proteins Sample.no_matrix).
  - reflexivity.
  - reflexivity.
Defined.
